(** * Comparative Market Analysis engine: a shallow embedding

    The development follows the three Python modules that make up the
    valuation engine:

    - [core/comparable_finder.py]   (class [ComparableFinder]),
    - [core/adjustment_calculator.py] (class [AdjustmentCalculator]),
    - [data/property_service.py]    (method [perform_cma_analysis]).

    Python [int] is [Z].  Python [float] and [Decimal] are modelled by exact
    rationals [Q]: rounding error of binary floating point is abstracted
    away, every other feature of the arithmetic (true division, [int()]
    truncating towards zero, [round(_, 2)], truthiness of zero) is kept.
    A [datetime] is the number of microseconds since the epoch.  Dictionaries
    keyed by strings are [gmap string _]. *)

From Stdlib Require Import ZArith QArith Qround Qabs Qminmax Lia Lqa.
From Stdlib Require Import Sorting.Sorted.
From stdpp Require Import base option list strings gmap fin_maps pretty.

Local Open Scope Z_scope.

(** ** Python numerics *)

Module Py.

(** Exceptions the modelled code can raise, and the result of a call that
    may raise. *)
Inductive exn : Type :=
| ZeroDivisionError
| ValueError
| KeyError (key : string).

Inductive result (A : Type) : Type :=
| Ok (a : A)
| Raise (e : exn).
Arguments Ok {A} a.
Arguments Raise {A} e.

Definition bind {A B} (m : result A) (k : A -> result B) : result B :=
  match m with
  | Ok a => k a
  | Raise e => Raise e
  end.

(** [for x in l] with a body that may raise: stops at the first raise. *)
Fixpoint for_each {A B} (f : A -> result B) (l : list A) : result (list B) :=
  match l with
  | [] => Ok []
  | x :: t =>
      bind (f x) (fun y => bind (for_each f t) (fun ys => Ok (y :: ys)))
  end.

(** [a / b]: true division raises on a zero divisor. *)
Definition truediv (a b : Q) : result Q :=
  if Qeq_bool b 0 then Raise ZeroDivisionError else Ok (a / b)%Q.

(** [d[k]] on a dictionary. *)
Definition getitem {V} (d : gmap string V) (k : string) : result V :=
  match d !! k with
  | Some v => Ok v
  | None => Raise (KeyError k)
  end.

(** Truthiness of optional numbers: [None] and zero are falsy. *)
Definition truthy_int (o : option Z) : bool :=
  match o with
  | Some z => negb (z =? 0)
  | None => false
  end.

Definition truthy_float (o : option Q) : bool :=
  match o with
  | Some q => negb (Qeq_bool q 0)
  | None => false
  end.

(** [if a and b:] on two optional integers (resp. floats): the values,
    when both are truthy. *)
Definition both_int (a b : option Z) : option (Z * Z) :=
  match a, b with
  | Some x, Some y => if truthy_int a && truthy_int b then Some (x, y) else None
  | _, _ => None
  end.

Definition both_float (a b : option Q) : option (Q * Q) :=
  match a, b with
  | Some x, Some y =>
      if truthy_float a && truthy_float b then Some (x, y) else None
  | _, _ => None
  end.

(** [int(x)] on a float: truncation towards zero. *)
Definition int (q : Q) : Z :=
  if Qle_bool 0 q then Qfloor q else Qceiling q.

(** [float(n)] on an integer. *)
Definition float (z : Z) : Q := inject_Z z.

(** [x != 0] on a number. *)
Definition nonzero (q : Q) : bool := negb (Qeq_bool q 0).

(** [max(a, b)] and [min(a, b)] on numbers: Python returns the first
    argument unless the second is strictly greater (resp. smaller). *)
Definition max (a b : Q) : Q := if Qle_bool b a then a else b.
Definition min (a b : Q) : Q := if Qle_bool a b then a else b.

(** Round half to even, the rule of Python's [round]. *)
Definition round_half_even (q : Q) : Z :=
  let f := Qfloor q in
  let r := (q - inject_Z f)%Q in
  match Qcompare r (1 # 2) with
  | Lt => f
  | Gt => f + 1
  | Eq => if Z.even f then f else f + 1
  end.

(** [round(x, 2)]. *)
Definition round2 (q : Q) : Q :=
  (inject_Z (round_half_even (q * 100)) / 100)%Q.

(** [l[:k]] for an integer [k]; a negative [k] counts from the end. *)
Definition slice_to {A} (l : list A) (k : Z) : list A :=
  if 0 <=? k then take (Z.to_nat k) l
  else take (Z.to_nat (Z.of_nat (length l) + k)) l.

(** [l.sort(key=key, reverse=True)]: Python's sort is stable, also when
    reversed, so among equal keys the earlier element stays first.  The
    insertion sort below is the stable descending sort. *)
Fixpoint insert_desc {A} (key : A -> Q) (x : A) (l : list A) : list A :=
  match l with
  | [] => [x]
  | y :: t =>
      if Qle_bool (key y) (key x) then x :: l
      else y :: insert_desc key x t
  end.

Definition sort_reverse {A} (key : A -> Q) (l : list A) : list A :=
  foldr (insert_desc key) [] l.

(** [sum], [min] and [max] over a list of numbers.  [min] and [max] are
    only called on non-empty lists in the code that is modelled. *)
Definition sum (l : list Q) : Q := fold_left Qplus l 0%Q.

Definition min_list (l : list Q) : Q :=
  match l with
  | [] => 0%Q
  | x :: t => fold_left min t x
  end.

Definition max_list (l : list Q) : Q :=
  match l with
  | [] => 0%Q
  | x :: t => fold_left max t x
  end.

Definition sumZ (l : list Z) : Z := fold_left Z.add l 0.

Definition min_listZ (l : list Z) : Z :=
  match l with
  | [] => 0
  | x :: t => fold_left Z.min t x
  end.

Definition max_listZ (l : list Z) : Z :=
  match l with
  | [] => 0
  | x :: t => fold_left Z.max t x
  end.

End Py.

#[global] Instance result_ret : MRet Py.result := @Py.Ok.
#[global] Instance result_bind : MBind Py.result :=
  fun A B k m => Py.bind m k.

(** ** Dates *)

Module Datetime.

Definition us_per_day : Z := 86400 * 1000000.

(** [timedelta(days=n)] in microseconds. *)
Definition timedelta_days (n : Z) : Z := n * us_per_day.

(** [(a - b).days]: a [timedelta] is normalised so that its seconds and
    microseconds are non-negative, hence the floor division. *)
Definition days_between (a b : Z) : Z := (a - b) / us_per_day.

(** Proleptic Gregorian date of a day number counted from 1970-01-01. *)
Definition civil_from_days (z : Z) : Z * Z * Z :=
  let z := z + 719468 in
  let era := z / 146097 in
  let doe := z - era * 146097 in
  let yoe := (doe - doe / 1460 + doe / 36524 - doe / 146096) / 365 in
  let y := yoe + era * 400 in
  let doy := doe - (365 * yoe + yoe / 4 - yoe / 100) in
  let mp := (5 * doy + 2) / 153 in
  let d := doy - (153 * mp + 2) / 5 + 1 in
  let m := if mp <? 10 then mp + 3 else mp - 9 in
  (if m <=? 2 then y + 1 else y, m, d).

Definition pad (width : nat) (z : Z) : string :=
  let s := pretty z in
  String.concat "" (replicate (width - String.length s)%nat "0"%string) +:+ s.

(** [t.strftime("%Y-%m-%d")]. *)
Definition strftime_ymd (t : Z) : string :=
  let '(y, m, d) := civil_from_days (t / us_per_day) in
  pad 4 y +:+ "-" +:+ pad 2 m +:+ "-" +:+ pad 2 d.

End Datetime.


(** ** The records ([models/database.py]) *)

(** The columns of [properties] read by the engine.  [id] is [None] on an
    object that was never stored. *)
Record Property : Type := mkProperty {
  id : option Z;
  address : string;
  property_type : option string;
  square_footage : option Z;
  bedrooms : option Z;
  bathrooms : option Q;
  year_built : option Z;
  lot_size : option Z;
  latitude : option Q;
  longitude : option Q
}.

Record PropertySale : Type := mkPropertySale {
  sale_id : Z;
  property_id : Z;
  sale_price : Q;
  sale_date : Z;
  days_on_market : option Z;
  sale_type : string
}.

(** A stored analysis (table [cma_analyses]). *)
Record CMAAnalysis : Type := mkCMAAnalysis {
  subject_property_id : Z;
  user_id : option Z;
  estimated_value_low : Z;
  estimated_value_high : Z;
  estimated_value_most_likely : Z;
  stored_confidence_score : Q;
  comparable_count : nat
}.

(** The database session: the three tables the service touches. *)
Record Session : Type := mkSession {
  properties : list Property;
  property_sales : list PropertySale;
  cma_analyses : list CMAAnalysis
}.

(** What a call can observe besides its arguments: the wall clock read by
    [datetime.now()] and the database behind [self.db].  The clock is taken
    to stand still during one call. *)
Record World : Type := mkWorld {
  clock : Z;
  db : Session
}.

(** ** The [math] module

    [math.radians], [sin], [cos], [asin] and [sqrt] are not rational
    functions; the distance is defined over any implementation of them. *)
Class MathLib : Type := {
  radians : Q -> Q;
  sin : Q -> Q;
  cos : Q -> Q;
  asin : Q -> Q;
  sqrt : Q -> Q
}.

(** The two facts about [math] that the score bound relies on. *)
Class MathLibLaws (M : MathLib) : Prop := {
  sqrt_nonneg : forall x, (0 <= sqrt x)%Q;
  asin_nonneg : forall x, (0 <= x)%Q -> (0 <= asin x)%Q
}.

(** What the symmetry of the distance relies on: [sin], [asin] and [sqrt]
    depend on the value of their argument only, and the square of [sin] is
    even. *)
Class MathLibSymmetry (M : MathLib) : Prop := {
  sin_proper : forall x y, (x == y)%Q -> (sin x == sin y)%Q;
  sin_sq_even : forall x, (sin (- x) ^ 2 == sin x ^ 2)%Q;
  asin_proper : forall x y, (x == y)%Q -> (asin x == asin y)%Q;
  sqrt_proper : forall x y, (x == y)%Q -> (sqrt x == sqrt y)%Q
}.

(** ** [core/comparable_finder.py] *)

Module ComparableFinder.
Section WithMath.
Context {M : MathLib}.
Local Open Scope Q_scope.

Definition _calculate_distance (lat1 lon1 lat2 lon2 : Q) : Q :=
  let lat1 := radians lat1 in
  let lon1 := radians lon1 in
  let lat2 := radians lat2 in
  let lon2 := radians lon2 in
  let dlat := lat2 - lat1 in
  let dlon := lon2 - lon1 in
  let a := sin (dlat / 2) ^ 2 + cos lat1 * cos lat2 * sin (dlon / 2) ^ 2 in
  let c := 2 * asin (sqrt a) in
  let r := 3956 in
  c * r.

(** The five blocks of [_calculate_similarity_score], each the new value of
    [score] after the block. *)
Definition size_block (subject comparable : Property) (score : Q) : Q :=
  match Py.both_int (square_footage subject) (square_footage comparable) with
  | Some (s, c) =>
      let size_diff := Z.abs (s - c) in
      let max_size := Z.max s c in
      let size_similarity :=
        Py.max 0 (1 - inject_Z size_diff / inject_Z max_size) in
      score + size_similarity * 30
  | None => score
  end.

Definition bedroom_block (subject comparable : Property) (score : Q) : Q :=
  match Py.both_int (bedrooms subject) (bedrooms comparable) with
  | Some (s, c) =>
      let bedroom_diff := Z.abs (s - c) in
      let bedroom_similarity := Py.max 0 (1 - inject_Z bedroom_diff / 5) in
      score + bedroom_similarity * 15
  | None => score
  end.

Definition bathroom_block (subject comparable : Property) (score : Q) : Q :=
  match Py.both_float (bathrooms subject) (bathrooms comparable) with
  | Some (s, c) =>
      let bathroom_diff := Qabs (s - c) in
      let bathroom_similarity := Py.max 0 (1 - bathroom_diff / 3) in
      score + bathroom_similarity * 15
  | None => score
  end.

Definition age_block (subject comparable : Property) (score : Q) : Q :=
  match Py.both_int (year_built subject) (year_built comparable) with
  | Some (s, c) =>
      let age_diff := Z.abs (s - c) in
      let age_similarity := Py.max 0 (1 - inject_Z age_diff / 50) in
      score + age_similarity * 20
  | None => score
  end.

Definition proximity_block (subject comparable : Property) (score : Q) : Q :=
  match Py.both_float (latitude subject) (longitude subject),
        Py.both_float (latitude comparable) (longitude comparable) with
  | Some (slat, slon), Some (clat, clon) =>
      let distance := _calculate_distance slat slon clat clon in
      let distance_similarity := Py.max 0 (1 - distance / 10) in
      score + distance_similarity * 20
  | _, _ => score
  end.

Definition _calculate_similarity_score (subject comparable : Property) : Q :=
  let score := 0 in
  let score := size_block subject comparable score in
  let score := bedroom_block subject comparable score in
  let score := bathroom_block subject comparable score in
  let score := age_block subject comparable score in
  let score := proximity_block subject comparable score in
  score.

(** [Property.id != subject_property.id] as SQL evaluates it: a comparison
    with NULL is not true. *)
Definition sql_ne (a b : option Z) : bool :=
  match a, b with
  | Some x, Some y => negb (x =? y)
  | _, _ => false
  end.

(** [db.query(Property, PropertySale).join(PropertySale)]: the pairs of a
    property and one of its sales, property by property. *)
Definition join_sales (s : Session) : list (Property * PropertySale) :=
  p ← properties s;
  sale ← filter (fun sale => id p = Some (property_id sale)) (property_sales s);
  [(p, sale)].

(** The three conditions of the [filter(...)] call. *)
Definition eligible (cutoff_date : Z) (subject_property : Property)
    (row : Property * PropertySale) : bool :=
  (cutoff_date <=? sale_date row.2)%Z
  && String.eqb (sale_type row.2) "sold"
  && (if Py.truthy_int (id subject_property)
      then sql_ne (id row.1) (id subject_property)
      else true).

Definition potential_comps (w : World) (subject_property : Property)
    : list (Property * PropertySale) :=
  let cutoff_date := (clock w - Datetime.timedelta_days 180)%Z in
  List.filter (eligible cutoff_date subject_property) (join_sales (db w)).

(** [scored_comps] as the [for] loop leaves it, before it is sorted. *)
Definition scored_comps (w : World) (subject_property : Property)
    : list (Property * PropertySale * Q) :=
  map (fun '(prop, sale) =>
         (prop, sale, _calculate_similarity_score subject_property prop))
      (potential_comps w subject_property).

Definition find_comparables (w : World) (subject_property : Property)
    (max_results : Z) : list (Property * PropertySale * Q) :=
  let scored_comps :=
    Py.sort_reverse (fun x => x.2) (scored_comps w subject_property) in
  Py.slice_to scored_comps max_results.

End WithMath.
End ComparableFinder.

(** ** [core/adjustment_calculator.py] *)

Module AdjustmentCalculator.

(** [self.adjustment_rates]. *)
Record adjustment_rates : Type := mkRates {
  price_per_sqft_base : Z;
  bedroom_adjustment : Z;
  bathroom_adjustment : Z;
  age_adjustment_per_year : Z;
  garage_adjustment : Z;
  pool_adjustment : Z;
  fireplace_adjustment : Z
}.

(** [__init__]. *)
Definition init : adjustment_rates := {|
  price_per_sqft_base := 150;
  bedroom_adjustment := 15000;
  bathroom_adjustment := 8000;
  age_adjustment_per_year := 500;
  garage_adjustment := 12000;
  pool_adjustment := 25000;
  fireplace_adjustment := 5000
|}.

Section WithRates.
Variable self : adjustment_rates.
Local Open Scope Q_scope.

Definition _calculate_size_adjustment (subject comparable : Property) : Q :=
  match Py.both_int (square_footage subject) (square_footage comparable) with
  | None => 0
  | Some (s, c) =>
      let size_difference := (s - c)%Z in
      let price_per_sqft :=
        if (c <? 1500)%Z then inject_Z (price_per_sqft_base self) * (12 # 10)
        else if (3000 <? c)%Z then inject_Z (price_per_sqft_base self) * (8 # 10)
        else inject_Z (price_per_sqft_base self) in
      inject_Z size_difference * price_per_sqft
  end.

Definition _calculate_bedroom_adjustment (subject comparable : Property) : Q :=
  match Py.both_int (bedrooms subject) (bedrooms comparable) with
  | None => 0
  | Some (s, c) =>
      let bedroom_difference := (s - c)%Z in
      inject_Z (bedroom_difference * bedroom_adjustment self)
  end.

Definition _calculate_bathroom_adjustment (subject comparable : Property) : Q :=
  match Py.both_float (bathrooms subject) (bathrooms comparable) with
  | None => 0
  | Some (s, c) =>
      let bathroom_difference := s - c in
      bathroom_difference * inject_Z (bathroom_adjustment self)
  end.

Definition _calculate_age_adjustment (subject comparable : Property) : Q :=
  match Py.both_int (year_built subject) (year_built comparable) with
  | None => 0
  | Some (s, c) =>
      let age_difference := (s - c)%Z in
      let age_difference := Z.max (-20) (Z.min 20 age_difference) in
      inject_Z (age_difference * age_adjustment_per_year self)
  end.

Definition _calculate_lot_size_adjustment (subject comparable : Property) : Q :=
  match Py.both_int (lot_size subject) (lot_size comparable) with
  | None => 0
  | Some (s, c) =>
      let lot_difference := (s - c)%Z in
      if (Z.abs lot_difference <=? 5000)%Z then inject_Z (lot_difference * 5)
      else
        let sign := (if (0 <? lot_difference)%Z then 1 else -1)%Z in
        let base_adjustment := (5000 * 5 * sign)%Z in
        let remaining_difference := (Z.abs lot_difference - 5000)%Z in
        let additional_adjustment := (remaining_difference * 2 * sign)%Z in
        inject_Z (base_adjustment + additional_adjustment)
  end.

(** The arithmetic of [_calculate_time_adjustment] once [days_ago] is
    known. *)
Definition time_adjustment_for (days_ago : Z) (price : Q) : Q :=
  if (days_ago <=? 90)%Z then 0
  else
    let quarters_old := inject_Z (days_ago - 90) / 90 in
    let appreciation_rate := (1 # 100) * quarters_old in
    let appreciation_rate := Py.min (2 # 100) appreciation_rate in
    price * appreciation_rate.

Definition _calculate_time_adjustment (now : Z) (comparable_sale : PropertySale)
    : Q :=
  let days_ago := Datetime.days_between now (sale_date comparable_sale) in
  time_adjustment_for days_ago (sale_price comparable_sale).

(** One [if adj != 0:] block: the dictionary and the running total. *)
Definition record_adjustment (name : string) (adj : Q)
    (st : gmap string Q * Q) : gmap string Q * Q :=
  if Py.nonzero adj then (<[name := adj]> st.1, st.2 + adj) else st.

Definition calculate_adjustments (now : Z) (subject_property : Property)
    (comparable_property : Property) (comparable_sale : PropertySale)
    : gmap string Q :=
  let st : gmap string Q * Q := (∅, 0) in
  let size_adj := _calculate_size_adjustment subject_property comparable_property in
  let st := record_adjustment "size_adjustment" size_adj st in
  let bedroom_adj :=
    _calculate_bedroom_adjustment subject_property comparable_property in
  let st := record_adjustment "bedroom_adjustment" bedroom_adj st in
  let bathroom_adj :=
    _calculate_bathroom_adjustment subject_property comparable_property in
  let st := record_adjustment "bathroom_adjustment" bathroom_adj st in
  let age_adj := _calculate_age_adjustment subject_property comparable_property in
  let st := record_adjustment "age_adjustment" age_adj st in
  let lot_adj :=
    _calculate_lot_size_adjustment subject_property comparable_property in
  let st := record_adjustment "lot_size_adjustment" lot_adj st in
  let time_adj := _calculate_time_adjustment now comparable_sale in
  let st := record_adjustment "time_adjustment" time_adj st in
  <["total" := inject_Z (Py.int st.2)]> st.1.

(** [comparable_sale_price + adjustments.get("total", 0)]. *)
Definition calculate_adjusted_price (comparable_sale_price : Q)
    (adjustments : gmap string Q) : Q :=
  comparable_sale_price + default 0 (adjustments !! "total").

End WithRates.
End AdjustmentCalculator.

(** ** [data/property_service.py] *)

Module PropertyService.

Record estimated_value_t : Type := mkEstimate {
  low : Z;
  high : Z;
  most_likely : Z
}.

(** One entry of ["comparables"].  The placeholder entry of the fallback
    has no [bedrooms], [bathrooms], [year_built], [lot_size] and
    [days_on_market] keys; they are [None] here. *)
Record comparable_info : Type := mkComparable {
  ci_address : string;
  ci_sale_price : Q;
  ci_sale_date : string;
  ci_square_feet : option Z;
  ci_bedrooms : option Z;
  ci_bathrooms : option Q;
  ci_year_built : option Z;
  ci_lot_size : option Z;
  ci_similarity_score : Q;
  ci_days_on_market : option Z;
  ci_adjustments : gmap string Q;
  ci_adjusted_price : Z
}.

Record adjustment_summary_t : Type := mkSummary {
  average_adjustment : Z;
  adjustment_range_min : Q;
  adjustment_range_max : Q
}.

(** The dictionary returned by [perform_cma_analysis]; the fallback has no
    ["adjustment_summary"]. *)
Record analysis : Type := mkAnalysis {
  estimated_value : estimated_value_t;
  comparables : list comparable_info;
  confidence_score : Q;
  adjustment_summary : option adjustment_summary_t
}.

(** [subject_property.square_footage or 2000]. *)
Definition square_feet_or_default (subject_property : Property) : Z :=
  match square_footage subject_property with
  | Some z => if Py.truthy_int (Some z) then z else 2000
  | None => 2000
  end.

Definition fallback_comparable (subject_property : Property)
    : comparable_info := {|
  ci_address := "No comparables found - using estimate";
  ci_sale_price := 400000;
  ci_sale_date := "2023-10-15";
  ci_square_feet := Some (square_feet_or_default subject_property);
  ci_bedrooms := None;
  ci_bathrooms := None;
  ci_year_built := None;
  ci_lot_size := None;
  ci_similarity_score := 0;
  ci_days_on_market := None;
  ci_adjustments := {["total" := 0%Q]};
  ci_adjusted_price := 400000
|}.

Definition fallback (subject_property : Property) : analysis := {|
  estimated_value := {| low := 350000; high := 450000; most_likely := 400000 |};
  comparables := [fallback_comparable subject_property];
  confidence_score := 3 # 10;
  adjustment_summary := None
|}.

(** The valuation from the adjusted prices (the [if adjusted_prices:]
    statement). *)
Definition estimate (adjusted_prices : list Q) : Py.result estimated_value_t :=
  match adjusted_prices with
  | _ :: _ =>
      avg_price ← Py.truediv (Py.sum adjusted_prices)
                    (inject_Z (Z.of_nat (length adjusted_prices)));
      let low_estimate := (Py.min_list adjusted_prices * (98 # 100))%Q in
      let high_estimate := (Py.max_list adjusted_prices * (102 # 100))%Q in
      mret {| low := Py.int low_estimate;
              high := Py.int high_estimate;
              most_likely := Py.int avg_price |}
  | [] =>
      mret {| low := 350000; high := 450000; most_likely := 400000 |}
  end.

Section WithMath.
Context {M : MathLib}.

(** The body of the [for prop, sale, similarity_score in comparables]
    loop: the entry and the adjusted price it appends. *)
Definition process_comparable (w : World) (subject_property : Property)
    (row : Property * PropertySale * Q) : comparable_info * Q :=
  let '(prop, sale, similarity_score) := row in
  let adjustments :=
    AdjustmentCalculator.calculate_adjustments AdjustmentCalculator.init
      (clock w) subject_property prop sale in
  let adjusted_price :=
    AdjustmentCalculator.calculate_adjusted_price (sale_price sale) adjustments in
  ({| ci_address := address prop;
      ci_sale_price := sale_price sale;
      ci_sale_date := Datetime.strftime_ymd (sale_date sale);
      ci_square_feet := square_footage prop;
      ci_bedrooms := bedrooms prop;
      ci_bathrooms := bathrooms prop;
      ci_year_built := year_built prop;
      ci_lot_size := lot_size prop;
      ci_similarity_score := Py.round2 similarity_score;
      ci_days_on_market := days_on_market sale;
      ci_adjustments := adjustments;
      ci_adjusted_price := Py.int adjusted_price |},
   adjusted_price).

(** [abs(comp["adjustments"]["total"]) / comp["sale_price"]]. *)
Definition adjustment_ratio (comp : comparable_info) : Py.result Q :=
  total ← Py.getitem (ci_adjustments comp) "total";
  Py.truediv (Qabs total) (ci_sale_price comp).

Definition perform_cma_analysis (w : World) (subject_property : Property)
    : Py.result analysis :=
  let comparables := ComparableFinder.find_comparables w subject_property 6 in
  match comparables with
  | [] => mret (fallback subject_property)
  | _ :: _ =>
      let processed := map (process_comparable w subject_property) comparables in
      let comparable_data := map fst processed in
      let adjusted_prices := map snd processed in
      estimated_value ← estimate adjusted_prices;
      let base_confidence :=
        ((5 # 10) + inject_Z (Z.of_nat (length comparables)) * (8 # 100))%Q in
      ratios ← Py.for_each adjustment_ratio comparable_data;
      let n := inject_Z (Z.of_nat (length comparable_data)) in
      avg_adjustment_ratio ← Py.truediv (Py.sum ratios) n;
      let adjustment_confidence_boost :=
        Py.max 0 ((2 # 10) * (1 - avg_adjustment_ratio))%Q in
      let confidence_score :=
        Py.min (95 # 100) (base_confidence + adjustment_confidence_boost)%Q in
      totals ← Py.for_each (fun comp => Py.getitem (ci_adjustments comp) "total")
                 comparable_data;
      average ← Py.truediv (Py.sum totals) n;
      mret {| estimated_value := estimated_value;
              comparables := comparable_data;
              confidence_score := Py.round2 confidence_score;
              adjustment_summary :=
                Some {| average_adjustment := Py.int average;
                        adjustment_range_min := Py.min_list totals;
                        adjustment_range_max := Py.max_list totals |} |}
  end.

End WithMath.

End PropertyService.

(** ** The calls that can raise

    The definitions of [ComparableFinder] and [PropertyService] above give
    what each function returns when the distance is computed without error.
    [math.sqrt] raises [ValueError] on a negative argument and [math.asin]
    on an argument outside [-1, 1]; the haversine term can leave these
    domains (coordinates outside the range of a latitude, or rounding), and
    the error then leaves [_calculate_distance], the score, the finder and
    the analysis.  The module below is the same code with this error path,
    and with the adjustment rates taken from the calculator the service
    holds.  Coordinates are finite numbers. *)

Module WithErrors.

(** [PropertyService.__init__]: the service holds its own calculator, whose
    rates are the configuration of the analysis ([self.db] is the database
    of the [World]). *)
Record service : Type := mkService {
  adjustment_calculator : AdjustmentCalculator.adjustment_rates
}.

Definition init : service :=
  {| adjustment_calculator := AdjustmentCalculator.init |}.

Section WithMath.
Context {M : MathLib}.
Local Open Scope Q_scope.

Definition math_sqrt (x : Q) : Py.result Q :=
  if Qle_bool 0 x then mret (sqrt x) else Py.Raise Py.ValueError.

Definition math_asin (x : Q) : Py.result Q :=
  if Qle_bool (-1) x && Qle_bool x 1 then mret (asin x)
  else Py.Raise Py.ValueError.

Definition _calculate_distance (lat1 lon1 lat2 lon2 : Q) : Py.result Q :=
  let lat1 := radians lat1 in
  let lon1 := radians lon1 in
  let lat2 := radians lat2 in
  let lon2 := radians lon2 in
  let dlat := lat2 - lat1 in
  let dlon := lon2 - lon1 in
  let a := sin (dlat / 2) ^ 2 + cos lat1 * cos lat2 * sin (dlon / 2) ^ 2 in
  root ← math_sqrt a;
  angle ← math_asin root;
  let c := 2 * angle in
  let r := 3956 in
  mret (c * r).

Definition proximity_block (subject comparable : Property) (score : Q)
    : Py.result Q :=
  match Py.both_float (latitude subject) (longitude subject),
        Py.both_float (latitude comparable) (longitude comparable) with
  | Some (slat, slon), Some (clat, clon) =>
      distance ← _calculate_distance slat slon clat clon;
      let distance_similarity := Py.max 0 (1 - distance / 10) in
      mret (score + distance_similarity * 20)
  | _, _ => mret score
  end.

Definition _calculate_similarity_score (subject comparable : Property)
    : Py.result Q :=
  let score := 0 in
  let score := ComparableFinder.size_block subject comparable score in
  let score := ComparableFinder.bedroom_block subject comparable score in
  let score := ComparableFinder.bathroom_block subject comparable score in
  let score := ComparableFinder.age_block subject comparable score in
  proximity_block subject comparable score.

(** The body of the scoring loop. *)
Definition score_row (subject_property : Property)
    (row : Property * PropertySale)
    : Py.result (Property * PropertySale * Q) :=
  let '(prop, sale) := row in
  score ← _calculate_similarity_score subject_property prop;
  mret (prop, sale, score).

Definition find_comparables (w : World) (subject_property : Property)
    (max_results : Z) : Py.result (list (Property * PropertySale * Q)) :=
  let potential_comps := ComparableFinder.potential_comps w subject_property in
  scored_comps ← Py.for_each (score_row subject_property) potential_comps;
  let scored_comps := Py.sort_reverse (fun x => x.2) scored_comps in
  mret (Py.slice_to scored_comps max_results).

(** The body of the [for prop, sale, similarity_score in comparables] loop,
    at the reading [now] of the clock. *)
Definition process_comparable (self : service) (now : Z)
    (subject_property : Property) (row : Property * PropertySale * Q)
    : PropertyService.comparable_info * Q :=
  let '(prop, sale, similarity_score) := row in
  let adjustments :=
    AdjustmentCalculator.calculate_adjustments (adjustment_calculator self)
      now subject_property prop sale in
  let adjusted_price :=
    AdjustmentCalculator.calculate_adjusted_price (sale_price sale) adjustments in
  ({| PropertyService.ci_address := address prop;
      PropertyService.ci_sale_price := sale_price sale;
      PropertyService.ci_sale_date := Datetime.strftime_ymd (sale_date sale);
      PropertyService.ci_square_feet := square_footage prop;
      PropertyService.ci_bedrooms := bedrooms prop;
      PropertyService.ci_bathrooms := bathrooms prop;
      PropertyService.ci_year_built := year_built prop;
      PropertyService.ci_lot_size := lot_size prop;
      PropertyService.ci_similarity_score := Py.round2 similarity_score;
      PropertyService.ci_days_on_market := days_on_market sale;
      PropertyService.ci_adjustments := adjustments;
      PropertyService.ci_adjusted_price := Py.int adjusted_price |},
   adjusted_price).

Definition perform_cma_analysis (self : service) (w : World)
    (subject_property : Property) : Py.result PropertyService.analysis :=
  comparables ← find_comparables w subject_property 6;
  match comparables with
  | [] => mret (PropertyService.fallback subject_property)
  | _ :: _ =>
      let processed :=
        map (process_comparable self (clock w) subject_property) comparables in
      let comparable_data := map fst processed in
      let adjusted_prices := map snd processed in
      estimated_value ← PropertyService.estimate adjusted_prices;
      let base_confidence :=
        (5 # 10) + inject_Z (Z.of_nat (length comparables)) * (8 # 100) in
      ratios ← Py.for_each PropertyService.adjustment_ratio comparable_data;
      let n := inject_Z (Z.of_nat (length comparable_data)) in
      avg_adjustment_ratio ← Py.truediv (Py.sum ratios) n;
      let adjustment_confidence_boost :=
        Py.max 0 ((2 # 10) * (1 - avg_adjustment_ratio)) in
      let confidence_score :=
        Py.min (95 # 100) (base_confidence + adjustment_confidence_boost) in
      totals ← Py.for_each
                 (fun comp =>
                    Py.getitem (PropertyService.ci_adjustments comp) "total")
                 comparable_data;
      average ← Py.truediv (Py.sum totals) n;
      mret {| PropertyService.estimated_value := estimated_value;
              PropertyService.comparables := comparable_data;
              PropertyService.confidence_score := Py.round2 confidence_score;
              PropertyService.adjustment_summary :=
                Some {| PropertyService.average_adjustment := Py.int average;
                        PropertyService.adjustment_range_min :=
                          Py.min_list totals;
                        PropertyService.adjustment_range_max :=
                          Py.max_list totals |} |}
  end.

End WithMath.
End WithErrors.

(** ** A computable [math]

    Low-order rational approximations of the [math] functions, so that the
    engine can be run on concrete inputs.  The theorems below hold for every
    [MathLib]; this one only serves the examples. *)

Module ApproxMath.
Local Open Scope Q_scope.

Definition newton_step (x y : Q) : Q := (y + x / y) / 2.

Definition sqrt_approx (x : Q) : Q :=
  if Qle_bool x 0 then 0
  else Qred (newton_step x (Qred (newton_step x (Qred (newton_step x ((x + 1) / 2)))))).

#[export] Instance math : MathLib := {|
  radians := fun x => x * (355 # 113) / 180;
  sin := fun x => x - x ^ 3 / 6;
  cos := fun x => 1 - x ^ 2 / 2;
  asin := fun x => x + x ^ 3 / 6;
  sqrt := sqrt_approx
|}.

End ApproxMath.

(** ** Sample data *)

Module Sample.
Import ApproxMath.

Definition day : Z := Datetime.us_per_day.

(** The clock of the examples: day 20000 after the epoch. *)
Definition today : Z := 20000 * day.

Definition bare (i : Z) (addr : string) : Property := {|
  id := Some i; address := addr; property_type := Some "single_family"%string;
  square_footage := None; bedrooms := None; bathrooms := None;
  year_built := None; lot_size := None; latitude := None; longitude := None
|}.

Definition house (i : Z) (addr : string) (sqft beds : Z) (baths : Q)
    (year : Z) : Property := {|
  id := Some i; address := addr; property_type := Some "single_family"%string;
  square_footage := Some sqft; bedrooms := Some beds; bathrooms := Some baths;
  year_built := Some year; lot_size := None; latitude := None; longitude := None
|}.

Definition sold (i pid : Z) (price : Q) (days_ago : Z) : PropertySale := {|
  sale_id := i; property_id := pid; sale_price := price;
  sale_date := today - days_ago * day; days_on_market := None;
  sale_type := "sold"
|}.

Definition world_of (now : Z) (ps : list Property) (ss : list PropertySale)
    : World :=
  {| clock := now;
     db := {| properties := ps; property_sales := ss; cma_analyses := [] |} |}.

Definition sized (i : Z) (addr : string) (sqft : Z) : Property := {|
  id := Some i; address := addr; property_type := Some "single_family"%string;
  square_footage := Some sqft; bedrooms := None; bathrooms := None;
  year_built := None; lot_size := None; latitude := None; longitude := None
|}.

(** A subject and two comparables, one sold 30 and one sold 100 days ago. *)
Definition subject : Property := house 1 "1 Main St" 1800 3 2 2010.
Definition twin : Property := house 2 "2 Main St" 1800 3 2 2010.
Definition cottage : Property := house 3 "3 Main St" 1000 2 1 1990.

Definition main_street (now : Z) : World :=
  world_of now [subject; twin; cottage]
    [sold 1 2 400000 30; sold 2 3 300000 100; sold 3 1 500000 10].

(** A studio valued against a mansion that sold cheaply. *)
Definition studio : Property := sized 1 "1 Hill Rd" 500.
Definition mansion : Property := sized 2 "2 Hill Rd" 5000.
Definition hill_road : World :=
  world_of today [studio; mansion] [sold 1 2 100000 30].


Definition zero_price : World :=
  world_of today [bare 1 "1 Low St"; bare 2 "2 Low St"] [sold 1 2 0 30].

(** A database without sales. *)
Definition no_sales : World := world_of today [subject; twin] [].

(** A property known only by its lot size. *)
Definition with_lot (i : Z) (addr : string) (lot : Z) : Property := {|
  id := Some i; address := addr; property_type := Some "single_family"%string;
  square_footage := None; bedrooms := None; bathrooms := None;
  year_built := None; lot_size := Some lot; latitude := None; longitude := None
|}.

(** A property known only by its coordinates. *)
Definition located (i : Z) (addr : string) (lat lon : Q) : Property := {|
  id := Some i; address := addr; property_type := Some "single_family"%string;
  square_footage := None; bedrooms := None; bathrooms := None;
  year_built := None; lot_size := None;
  latitude := Some lat; longitude := Some lon
|}.

(** A subject stored with the latitude 127.86, which is outside the range
    of a latitude, and a candidate half the globe away. *)
Definition off_the_map : Property := located 1 "1 Pole Rd" (12786 # 100) (17868 # 100).
Definition antipode : Property := located 2 "2 Pole Rd" (5214 # 100) (-132 # 100).
Definition pole_road : World :=
  world_of today [off_the_map; antipode] [sold 1 2 250000 30].

(** The tables of [main_street] in another order, with an analysis already
    stored. *)
Definition main_street_reordered : World :=
  {| clock := today;
     db := {| properties := [cottage; subject; twin];
              property_sales :=
                [sold 3 1 500000 10; sold 2 3 300000 100; sold 1 2 400000 30];
              cma_analyses :=
                [ {| subject_property_id := 1; user_id := Some 7;
                     estimated_value_low := 350000;
                     estimated_value_high := 450000;
                     estimated_value_most_likely := 400000;
                     stored_confidence_score := 3 # 10;
                     comparable_count := 1 |} ] |} |}.

(** Seven candidates without any feature, hence with the same score, and
    the same seven the other way round. *)
Definition plain_sales : list PropertySale :=
  [sold 1 2 100000 10; sold 2 3 200000 10; sold 3 4 300000 10;
   sold 4 5 400000 10; sold 5 6 500000 10; sold 6 7 600000 10;
   sold 7 8 700000 10].
Definition plain_street : list Property :=
  [bare 2 "2 Plain St"; bare 3 "3 Plain St"; bare 4 "4 Plain St";
   bare 5 "5 Plain St"; bare 6 "6 Plain St"; bare 7 "7 Plain St";
   bare 8 "8 Plain St"].
Definition plain : World := world_of today plain_street plain_sales.
Definition plain_reversed : World :=
  world_of today (rev plain_street) plain_sales.

End Sample.

(** ** Notions used to state the properties *)

(** The order of a list sorted by descending key. *)
Definition descending {A} (key : A -> Q) (a b : A) : Prop :=
  (key b <= key a)%Q.

(** The entries of a ranking whose score equals [q], in order. *)
Definition with_score (q : Q) (l : list (Property * PropertySale * Q))
    : list (Property * PropertySale * Q) :=
  List.filter (fun x => Qeq_bool x.2 q) l.

(** A valid property has no negative square footage. *)
Definition valid_property (p : Property) : Prop :=
  match square_footage p with
  | Some z => (0 <= z)%Z
  | None => True
  end.

(** An optional number with a zero replaced by [None]. *)
Definition blank_int (o : option Z) : option Z :=
  if Py.truthy_int o then o else None.

Definition blank_float (o : option Q) : option Q :=
  if Py.truthy_float o then o else None.

(** The property with every zero among its five optional numeric fields
    replaced by a missing value. *)
Definition zero_as_missing (p : Property) : Property := {|
  id := id p;
  address := address p;
  property_type := property_type p;
  square_footage := blank_int (square_footage p);
  bedrooms := blank_int (bedrooms p);
  bathrooms := blank_float (bathrooms p);
  year_built := blank_int (year_built p);
  lot_size := blank_int (lot_size p);
  latitude := latitude p;
  longitude := longitude p
|}.

Definition is_zero_int (o : option Z) : Prop := o = Some 0%Z.

Definition is_zero_float (o : option Q) : Prop :=
  exists q, o = Some q /\ (q == 0)%Q.

(** The step of a sum over the entries of a dictionary. *)
Definition sum_step : string -> Q -> Q -> Q := fun _ v acc => (v + acc)%Q.

(** The sum of the entries of an adjustment set other than ["total"]. *)
Definition entries_sum (adjustments : gmap string Q) : Q :=
  map_fold sum_step 0%Q (delete "total" adjustments).

(** What one [if adj != 0:] block of [calculate_adjustments] keeps true:
    ["total"] is not yet a key and the running total is the sum of the
    entries. *)
Definition running (st : gmap string Q * Q) : Prop :=
  st.1 !! "total"%string = None /\ (st.2 == map_fold sum_step 0 st.1)%Q.


(** Scoring one of the eligible rows ends in a [ValueError]. *)
Definition domain_error `{M : MathLib} (w : World) (subject : Property)
    : Prop :=
  Exists
    (fun row : Property * PropertySale =>
       WithErrors._calculate_similarity_score subject row.1
       = Py.Raise Py.ValueError)
    (ComparableFinder.potential_comps w subject).

(** One of the selected comparables was sold for nothing. *)
Definition zero_price (selected : list (Property * PropertySale * Q)) : Prop :=
  Exists (fun row => (sale_price row.1.2 == 0)%Q) selected.

(** No two eligible rows have the same score. *)
Definition no_ties `{M : MathLib} (w : World) (subject : Property) : Prop :=
  forall r1 r2 : Property * PropertySale,
    r1 ∈ ComparableFinder.potential_comps w subject ->
    r2 ∈ ComparableFinder.potential_comps w subject ->
    (ComparableFinder._calculate_similarity_score subject r1.1
     == ComparableFinder._calculate_similarity_score subject r2.1)%Q ->
    r1 = r2.

(** The category names [calculate_adjustments] may use as keys. *)
Definition category_names : list string :=
  ["size_adjustment"; "bedroom_adjustment"; "bathroom_adjustment";
   "age_adjustment"; "lot_size_adjustment"; "time_adjustment"]%string.

(** * Properties *)

(** ** Python numerics *)

(** Division by a positive literal, rewritten as a product so that [lra]
    and [nra] see it. *)
Ltac div_by_literal :=
  unfold Qdiv in *;
  repeat match goal with
    | |- context [Qinv (Zpos ?n # ?d)] =>
        change (Qinv (Zpos n # d)) with (Zpos d # n) in *
    | H : context [Qinv (Zpos ?n # ?d)] |- _ =>
        change (Qinv (Zpos n # d)) with (Zpos d # n) in *
    end.

Section PyFacts.
Local Open Scope Q_scope.

Lemma int_comp (p q : Q) : p == q -> Py.int p = Py.int q.
Proof.
  intros E. unfold Py.int.
  destruct (Qle_bool 0 p) eqn:Hp; destruct (Qle_bool 0 q) eqn:Hq.
  - now rewrite E.
  - apply Qle_bool_iff in Hp. rewrite E in Hp. apply Qle_bool_iff in Hp.
    congruence.
  - apply Qle_bool_iff in Hq. rewrite <- E in Hq. apply Qle_bool_iff in Hq.
    congruence.
  - now rewrite E.
Qed.

Lemma int_nonneg (q : Q) : 0 <= q -> Py.int q = Qfloor q.
Proof.
  intros H. unfold Py.int. apply Qle_bool_iff in H. now rewrite H.
Qed.

Lemma Qceiling_neg (q : Q) : q < 0 -> (Qceiling q <= 0)%Z.
Proof.
  intros H. unfold Qceiling.
  assert (0 <= Qfloor (- q))%Z; [|lia].
  change 0%Z with (Qfloor 0). apply Qfloor_resp_le. lra.
Qed.

Lemma Qfloor_nonneg (q : Q) : 0 <= q -> (0 <= Qfloor q)%Z.
Proof. intros H. change 0%Z with (Qfloor 0). now apply Qfloor_resp_le. Qed.

Lemma int_mono (p q : Q) : p <= q -> (Py.int p <= Py.int q)%Z.
Proof.
  intros H. unfold Py.int.
  destruct (Qle_bool 0 p) eqn:Hp; destruct (Qle_bool 0 q) eqn:Hq.
  - now apply Qfloor_resp_le.
  - apply Qle_bool_iff in Hp.
    assert (0 <= q) as Hq' by lra. apply Qle_bool_iff in Hq'. congruence.
  - apply Qle_bool_iff in Hq.
    assert (p < 0) as Hp'.
    { apply Qnot_le_lt. intros C. apply Qle_bool_iff in C. congruence. }
    pose proof (Qceiling_neg _ Hp'). pose proof (Qfloor_nonneg _ Hq). lia.
  - now apply Qceiling_resp_le.
Qed.

Lemma max_spec (a b : Q) : a <= Py.max a b /\ b <= Py.max a b.
Proof.
  unfold Py.max. destruct (Qle_bool b a) eqn:E.
  - apply Qle_bool_iff in E. split; lra.
  - assert (a < b).
    { apply Qnot_le_lt. intros C. apply Qle_bool_iff in C. congruence. }
    split; lra.
Qed.

Lemma max_cases (a b : Q) :
  Py.max a b = a /\ b <= a \/ Py.max a b = b /\ a < b.
Proof.
  unfold Py.max. destruct (Qle_bool b a) eqn:E.
  - left. split; [reflexivity|]. now apply Qle_bool_iff.
  - right. split; [reflexivity|].
    apply Qnot_le_lt. intros C. apply Qle_bool_iff in C. congruence.
Qed.

Lemma min_spec (a b : Q) : Py.min a b <= a /\ Py.min a b <= b.
Proof.
  unfold Py.min. destruct (Qle_bool a b) eqn:E.
  - apply Qle_bool_iff in E. split; lra.
  - assert (b < a).
    { apply Qnot_le_lt. intros C. apply Qle_bool_iff in C. congruence. }
    split; lra.
Qed.

Lemma min_cases (a b : Q) :
  Py.min a b = a /\ a <= b \/ Py.min a b = b /\ b < a.
Proof.
  unfold Py.min. destruct (Qle_bool a b) eqn:E.
  - left. split; [reflexivity|]. now apply Qle_bool_iff.
  - right. split; [reflexivity|].
    apply Qnot_le_lt. intros C. apply Qle_bool_iff in C. congruence.
Qed.

Lemma nonzero_false (q : Q) : Py.nonzero q = false <-> q == 0.
Proof.
  unfold Py.nonzero. rewrite negb_false_iff. apply Qeq_bool_iff.
Qed.

Lemma truediv_ok (a b : Q) : ~ b == 0 -> Py.truediv a b = Py.Ok (a / b).
Proof.
  intros H. unfold Py.truediv. destruct (Qeq_bool b 0) eqn:E; [|easy].
  apply Qeq_bool_iff in E. contradiction.
Qed.


Lemma length_divisor_nonzero {A} (x : A) (l : list A) :
  ~ inject_Z (Z.of_nat (length (x :: l))) == 0.
Proof.
  unfold Qeq. simpl. lia.
Qed.

End PyFacts.

(** ** The adjustment set *)

Section AdjustmentSet.
Local Open Scope Q_scope.
Import AdjustmentCalculator.

Lemma sum_step_insert (m : gmap string Q) (k : string) (v : Q) :
  m !! k = None ->
  map_fold sum_step 0 (<[k := v]> m) == v + map_fold sum_step 0 m.
Proof.
  intros Hk.
  apply (map_fold_insert Qeq sum_step 0 k v m); [| |exact Hk].
  - intros j z x y E. unfold sum_step. now rewrite E.
  - intros. unfold sum_step. ring.
Qed.

Lemma record_adjustment_other (name k : string) (adj : Q) st :
  k <> name -> (record_adjustment name adj st).1 !! k = st.1 !! k.
Proof.
  intros Hne. unfold record_adjustment. destruct (Py.nonzero adj); [|easy].
  simpl. now rewrite lookup_insert_ne.
Qed.

Lemma record_adjustment_running (name : string) (adj : Q) st :
  name <> "total"%string -> st.1 !! name = None ->
  running st -> running (record_adjustment name adj st).
Proof.
  intros Hne Hfresh [Ht Hs]. unfold record_adjustment.
  destruct (Py.nonzero adj); [|now split]. split; simpl.
  - now rewrite lookup_insert_ne.
  - rewrite sum_step_insert by exact Hfresh. rewrite Hs. ring.
Qed.

Lemma calculate_adjustments_state (self : adjustment_rates) (now : Z)
    (subject comparable : Property) (sale : PropertySale) :
  exists st, running st /\
    calculate_adjustments self now subject comparable sale
    = <["total"%string := inject_Z (Py.int st.2)]> st.1.
Proof.
  unfold calculate_adjustments. eexists. split; [|reflexivity].
  repeat (apply record_adjustment_running;
          [discriminate
          |repeat (rewrite record_adjustment_other by discriminate);
           apply lookup_empty|]).
  split; simpl; [apply lookup_empty|]. now rewrite map_fold_empty.
Qed.


(** C1 (as amended): the ["total"] entry of the adjustment set is the sum
    of the other entries truncated towards zero by [int()]. *)
Theorem total_is_truncated_sum (self : adjustment_rates) (now : Z)
    (subject comparable : Property) (sale : PropertySale) :
  let adjustments := calculate_adjustments self now subject comparable sale in
  adjustments !! "total"%string
  = Some (inject_Z (Py.int (entries_sum adjustments))).
Proof.
  intros adjustments. subst adjustments.
  destruct (calculate_adjustments_state self now subject comparable sale)
    as (st & [Ht Hs] & ->).
  rewrite lookup_insert_eq. do 2 f_equal. apply int_comp.
  unfold entries_sum. rewrite delete_insert_id by exact Ht. exact Hs.
Qed.

(** C1 (as stated) fails: a comparable sold 100 days ago for 400000 gets the
    time adjustment 4000/9, the only entry, while ["total"] is 444. *)
Lemma total_differs_from_sum :
  let adjustments :=
    calculate_adjustments init Sample.today (Sample.bare 1 "1 Elm St")
      (Sample.bare 2 "2 Elm St") (Sample.sold 1 2 400000 100) in
  adjustments !! "total"%string = Some 444
  /\ adjustments !! "time_adjustment"%string = Some (400000 * ((1 # 100) * (10 / 90)))
  /\ entries_sum adjustments == 4000 # 9
  /\ ~ 444 == entries_sum adjustments.
Proof.
  vm_compute. repeat split; discriminate.
Qed.

End AdjustmentSet.

(** ** The time adjustment *)

Section TimeAdjustment.
Local Open Scope Q_scope.
Import AdjustmentCalculator.

(** The appreciation rate applied to a sale [days_ago] days old. *)
Lemma time_adjustment_for_old (days_ago : Z) (price : Q) :
  (90 < days_ago)%Z ->
  time_adjustment_for days_ago price
  = price * Py.min (2 # 100) ((1 # 100) * (inject_Z (days_ago - 90) / 90)).
Proof.
  intros H. unfold time_adjustment_for.
  destruct (days_ago <=? 90)%Z eqn:E; [lia|reflexivity].
Qed.

Lemma time_adjustment_for_recent (days_ago : Z) (price : Q) :
  (days_ago <= 90)%Z -> time_adjustment_for days_ago price = 0.
Proof.
  intros H. unfold time_adjustment_for.
  destruct (days_ago <=? 90)%Z eqn:E; [reflexivity|lia].
Qed.

Lemma quarters_old_mono (d d' : Z) :
  (d <= d')%Z -> inject_Z (d - 90) / 90 <= inject_Z (d' - 90) / 90.
Proof.
  intros H. assert (inject_Z (d - 90) <= inject_Z (d' - 90)).
  { rewrite <- Zle_Qle. lia. }
  div_by_literal. lra.
Qed.

Lemma quarters_old_nonneg (d : Z) : (90 <= d)%Z -> 0 <= inject_Z (d - 90) / 90.
Proof.
  intros H. assert (inject_Z 0 <= inject_Z (d - 90)).
  { rewrite <- Zle_Qle. lia. }
  change (inject_Z 0) with 0 in *. div_by_literal. lra.
Qed.

Lemma rate_mono (a b : Q) : a <= b -> Py.min (2 # 100) a <= Py.min (2 # 100) b.
Proof.
  intros H.
  destruct (min_cases (2 # 100) a) as [[-> Ha] | [-> Ha]];
    destruct (min_cases (2 # 100) b) as [[-> Hb] | [-> Hb]]; lra.
Qed.

Lemma rate_bounds (a : Q) :
  0 <= a -> 0 <= Py.min (2 # 100) a /\ Py.min (2 # 100) a <= 2 # 100.
Proof.
  intros H.
  destruct (min_cases (2 # 100) a) as [[-> Ha] | [-> Ha]]; split; lra.
Qed.

Lemma time_adjustment_for_bounds (days_ago : Z) (price : Q) :
  0 <= price ->
  0 <= time_adjustment_for days_ago price
  /\ time_adjustment_for days_ago price <= (2 # 100) * price.
Proof.
  intros Hp. destruct (Z_le_gt_dec days_ago 90) as [H | H].
  - rewrite time_adjustment_for_recent by exact H. split; lra.
  - rewrite time_adjustment_for_old by lia.
    destruct (rate_bounds ((1 # 100) * (inject_Z (days_ago - 90) / 90)))
      as [H0 H1].
    { pose proof (quarters_old_nonneg days_ago ltac:(lia)). lra. }
    split; nra.
Qed.

Lemma time_adjustment_for_mono (d d' : Z) (price price' : Q) :
  0 <= price -> price == price' -> (d <= d')%Z ->
  time_adjustment_for d price <= time_adjustment_for d' price'.
Proof.
  intros Hp E Hd. destruct (Z_le_gt_dec d 90) as [H | H].
  - rewrite (time_adjustment_for_recent d) by exact H.
    apply time_adjustment_for_bounds. lra.
  - rewrite !time_adjustment_for_old by lia.
    pose proof (quarters_old_mono d d' Hd) as Hq.
    pose proof (rate_mono ((1 # 100) * (inject_Z (d - 90) / 90))
                  ((1 # 100) * (inject_Z (d' - 90) / 90)) ltac:(lra)) as Hr.
    rewrite <- E. nra.
Qed.

(** C8: for a sale with a positive price the time adjustment is 0 when the
    sale is at most 90 days old, it is never negative, it never exceeds 2%
    of the sale price, and it does not decrease when [days_ago] grows
    (between two sales of the same price, or two readings of the clock). *)
Theorem time_adjustment_zero_monotone_capped (now : Z) (sale : PropertySale) :
  0 < sale_price sale ->
  ((Datetime.days_between now (sale_date sale) <= 90)%Z ->
     _calculate_time_adjustment now sale = 0)
  /\ 0 <= _calculate_time_adjustment now sale
  /\ _calculate_time_adjustment now sale <= (2 # 100) * sale_price sale
  /\ (forall (now' : Z) (sale' : PropertySale),
        sale_price sale' == sale_price sale ->
        (90 < Datetime.days_between now (sale_date sale))%Z ->
        (Datetime.days_between now (sale_date sale)
         <= Datetime.days_between now' (sale_date sale'))%Z ->
        _calculate_time_adjustment now sale
        <= _calculate_time_adjustment now' sale').
Proof.
  intros Hp. unfold _calculate_time_adjustment.
  destruct (time_adjustment_for_bounds
              (Datetime.days_between now (sale_date sale)) (sale_price sale))
    as [H0 H1]; [lra|].
  repeat split; try assumption.
  - apply time_adjustment_for_recent.
  - intros now' sale' E _ Hd. apply time_adjustment_for_mono; [lra| |exact Hd].
    symmetry. exact E.
Qed.

Lemma time_adjustment_zero_monotone_capped_witness :
  let sale := Sample.sold 1 2 400000 120 in
  0 <= _calculate_time_adjustment Sample.today sale
  /\ _calculate_time_adjustment Sample.today sale <= (2 # 100) * sale_price sale.
Proof.
  intros sale.
  pose proof (time_adjustment_zero_monotone_capped Sample.today sale) as H.
  destruct H as (_ & H0 & H1 & _); [reflexivity|]. split; assumption.
Defined.

End TimeAdjustment.

(** ** The valuation range *)

Section Aggregator.
Local Open Scope Q_scope.
Import PropertyService.

Lemma fold_min_le (t : list Q) (x : Q) :
  fold_left Py.min t x <= x /\ Forall (fun y => fold_left Py.min t x <= y) t.
Proof.
  revert x. induction t as [|y t IH]; intros x; simpl.
  - split; [lra|constructor].
  - destruct (IH (Py.min x y)) as [H1 H2].
    destruct (min_spec x y) as [Hx Hy].
    split; [lra|]. constructor; [lra|exact H2].
Qed.

Lemma fold_max_ge (t : list Q) (x : Q) :
  x <= fold_left Py.max t x /\ Forall (fun y => y <= fold_left Py.max t x) t.
Proof.
  revert x. induction t as [|y t IH]; intros x; simpl.
  - split; [lra|constructor].
  - destruct (IH (Py.max x y)) as [H1 H2].
    destruct (max_spec x y) as [Hx Hy].
    split; [lra|]. constructor; [lra|exact H2].
Qed.

Lemma fold_min_In (t : list Q) (x : Q) : In (fold_left Py.min t x) (x :: t).
Proof.
  revert x. induction t as [|y t IH]; intros x; [now left|].
  cbn [fold_left].
  destruct (IH (Py.min x y)) as [H | H]; [|right; right; exact H].
  destruct (min_cases x y) as [[E _] | [E _]]; rewrite E in H |- *.
  - left. exact H.
  - right. left. exact H.
Qed.

Lemma fold_max_In (t : list Q) (x : Q) : In (fold_left Py.max t x) (x :: t).
Proof.
  revert x. induction t as [|y t IH]; intros x; [now left|].
  cbn [fold_left].
  destruct (IH (Py.max x y)) as [H | H]; [|right; right; exact H].
  destruct (max_cases x y) as [[E _] | [E _]]; rewrite E in H |- *.
  - left. exact H.
  - right. left. exact H.
Qed.

Lemma fold_sum_shift (l : list Q) (a : Q) :
  fold_left Qplus l a == a + fold_left Qplus l 0.
Proof.
  revert a. induction l as [|x l IH]; intros a; simpl; [ring|].
  rewrite (IH (a + x)), (IH (0 + x)). ring.
Qed.

Lemma sum_between (lo hi : Q) (l : list Q) :
  Forall (fun p => lo <= p /\ p <= hi) l ->
  lo * inject_Z (Z.of_nat (length l)) <= Py.sum l
  /\ Py.sum l <= hi * inject_Z (Z.of_nat (length l)).
Proof.
  unfold Py.sum. induction 1 as [|x l [Hlo Hhi] _ [IH1 IH2]].
  - change (inject_Z (Z.of_nat (length (@nil Q)))) with 0.
    cbn [fold_left]. split; lra.
  - cbn [fold_left length]. rewrite fold_sum_shift.
    rewrite Nat2Z.inj_succ, <- Z.add_1_r, inject_Z_plus.
    change (inject_Z 1) with 1. split; lra.
Qed.

Lemma min_list_spec (x : Q) (t : list Q) :
  In (Py.min_list (x :: t)) (x :: t)
  /\ Forall (fun y => Py.min_list (x :: t) <= y) (x :: t).
Proof.
  split; [apply fold_min_In|].
  destruct (fold_min_le t x). now constructor.
Qed.

Lemma max_list_spec (x : Q) (t : list Q) :
  In (Py.max_list (x :: t)) (x :: t)
  /\ Forall (fun y => y <= Py.max_list (x :: t)) (x :: t).
Proof.
  split; [apply fold_max_In|].
  destruct (fold_max_ge t x). now constructor.
Qed.

(** The mean of a non-empty list lies between its minimum and maximum. *)
Lemma mean_between (x : Q) (t : list Q) :
  let n := inject_Z (Z.of_nat (length (x :: t))) in
  Py.min_list (x :: t) <= Py.sum (x :: t) / n
  /\ Py.sum (x :: t) / n <= Py.max_list (x :: t).
Proof.
  intros n.
  assert (0 < n) as Hn.
  { unfold n. change 0 with (inject_Z 0). rewrite <- Zlt_Qlt. simpl. lia. }
  destruct (min_list_spec x t) as [_ Hmin].
  destruct (max_list_spec x t) as [_ Hmax].
  destruct (sum_between (Py.min_list (x :: t)) (Py.max_list (x :: t)) (x :: t))
    as [H1 H2].
  { rewrite List.Forall_forall in *. intros y Hy. split; auto. }
  fold n in H1, H2. split.
  - apply Qle_shift_div_l; assumption.
  - apply Qle_shift_div_r; assumption.
Qed.

(** C2 (as amended): for every non-empty list of non-negative adjusted
    prices the valuation is produced, [low] is the minimum times 0.98
    rounded down, [high] is the maximum times 1.02 rounded down,
    [most_likely] is the mean rounded down, and
    [low <= most_likely <= high]. *)
Theorem estimate_ordered (adjusted_prices : list Q) :
  adjusted_prices <> [] ->
  Forall (fun p => 0 <= p) adjusted_prices ->
  exists e,
    estimate adjusted_prices = Py.Ok e
    /\ low e = Qfloor (Py.min_list adjusted_prices * (98 # 100))
    /\ high e = Qfloor (Py.max_list adjusted_prices * (102 # 100))
    /\ most_likely e
       = Qfloor (Py.sum adjusted_prices
                 / inject_Z (Z.of_nat (length adjusted_prices)))
    /\ (low e <= most_likely e)%Z /\ (most_likely e <= high e)%Z.
Proof.
  intros Hne Hpos. destruct adjusted_prices as [|x t]; [congruence|].
  unfold estimate.
  rewrite truediv_ok by apply length_divisor_nonzero.
  eexists. split; [reflexivity|]. cbn [low high most_likely].
  destruct (mean_between x t) as [Hlo Hhi].
  destruct (min_list_spec x t) as [Hmin _].
  destruct (max_list_spec x t) as [Hmax _].
  rewrite List.Forall_forall in Hpos.
  pose proof (Hpos _ Hmin) as Hmin0. pose proof (Hpos _ Hmax) as Hmax0.
  rewrite <- !int_nonneg by lra.
  repeat split; try (rewrite int_nonneg by lra; reflexivity).
  - apply int_mono. lra.
  - apply int_mono. lra.
Qed.

Lemma estimate_ordered_witness :
  exists e, estimate [400000; 477333] = Py.Ok e
            /\ (low e <= most_likely e)%Z /\ (most_likely e <= high e)%Z.
Proof.
  destruct (estimate_ordered [400000; 477333]) as (e & H & _ & _ & _ & H1 & H2).
  - discriminate.
  - repeat constructor; discriminate.
  - exists e. repeat split; assumption.
Defined.

(** C2 (as stated) fails: the only comparable of the studio is the mansion,
    whose adjusted price is 100000 - 4500 * 120 = -440000; the valuation
    has [low] -431200 above [most_likely] -440000 above [high] -448800. *)
Lemma estimate_not_ordered :
  exists r,
    @perform_cma_analysis ApproxMath.math Sample.hill_road Sample.studio
    = Py.Ok r
    /\ estimated_value r
       = {| low := -431200; high := -448800; most_likely := -440000 |}
    /\ ~ (low (estimated_value r) <= most_likely (estimated_value r))%Z
    /\ ~ (most_likely (estimated_value r) <= high (estimated_value r))%Z.
Proof.
  eexists. split; [vm_compute; reflexivity|].
  split; [reflexivity|]. split; vm_compute; intros C; apply C; reflexivity.
Qed.

End Aggregator.

(** ** The model on concrete inputs *)

Section Checks.
Local Open Scope Q_scope.
Import AdjustmentCalculator.

Example strftime_epoch : Datetime.strftime_ymd 0 = "1970-01-01"%string.
Proof. vm_compute. reflexivity. Qed.

Example strftime_leap_day :
  Datetime.strftime_ymd (19782 * Datetime.us_per_day + 5) = "2024-02-29"%string.
Proof. vm_compute. reflexivity. Qed.

Example int_truncates_towards_zero :
  Py.int (-7 # 2) = (-3)%Z /\ Py.int (7 # 2) = 3%Z.
Proof. split; reflexivity. Qed.

Example round2_ties_to_even :
  Py.round2 (1 # 8) == 12 # 100 /\ Py.round2 (3 # 8) == 38 # 100.
Proof. split; reflexivity. Qed.

Example negative_slice_drops_the_tail :
  Py.slice_to [1; 2; 3]%Z (-1) = [1; 2]%Z.
Proof. reflexivity. Qed.

Example sort_keeps_ties_in_order :
  Py.sort_reverse snd [("a", 1); ("b", 2); ("c", 1); ("d", 2)]%string
  = [("b", 2); ("d", 2); ("a", 1); ("c", 1)]%string.
Proof. reflexivity. Qed.

(** A 1000 sq ft comparable against a 2000 sq ft subject: 1000 * 150 * 1.2. *)
Example small_comparable_size_adjustment :
  _calculate_size_adjustment init (Sample.sized 1 "a" 2000) (Sample.sized 2 "b" 1000)
  == 180000.
Proof. reflexivity. Qed.

(** The age difference is clamped to 20 years. *)
Example age_adjustment_clamped :
  _calculate_age_adjustment init (Sample.house 1 "a" 1800 3 2 2020)
    (Sample.house 2 "b" 1800 3 2 1950) == 10000.
Proof. reflexivity. Qed.

End Checks.

(** ** Sorting and slicing *)

Section SortFacts.
Context {A : Type} (key : A -> Q).
Local Open Scope Q_scope.

Local Abbreviation desc := (descending key).

Lemma insert_desc_perm (x : A) (l : list A) :
  Py.insert_desc key x l ≡ₚ x :: l.
Proof.
  induction l as [|y t IH]; simpl; [reflexivity|].
  destruct (Qle_bool (key y) (key x)); [reflexivity|].
  rewrite IH. apply Permutation_swap.
Qed.

Lemma sort_reverse_perm (l : list A) : Py.sort_reverse key l ≡ₚ l.
Proof.
  induction l as [|x t IH]; simpl; [reflexivity|].
  fold (Py.sort_reverse key t). rewrite insert_desc_perm. now rewrite IH.
Qed.

Lemma insert_desc_sorted (x : A) (l : list A) :
  StronglySorted desc l -> StronglySorted desc (Py.insert_desc key x l).
Proof.
  induction 1 as [|y t Hs IH Hall]; simpl.
  - constructor; constructor.
  - destruct (Qle_bool (key y) (key x)) eqn:E.
    + apply Qle_bool_iff in E. constructor; [now constructor|].
      constructor; [exact E|].
      eapply List.Forall_impl; [|exact Hall]. intros z Hz. unfold descending in *. lra.
    + assert (key x < key y) as Hlt.
      { apply Qnot_le_lt. intros C. apply Qle_bool_iff in C. congruence. }
      constructor; [exact IH|].
      rewrite (insert_desc_perm x t). constructor; [|exact Hall].
      unfold descending. lra.
Qed.

Lemma sort_reverse_sorted (l : list A) :
  StronglySorted desc (Py.sort_reverse key l).
Proof.
  induction l as [|x t IH]; simpl; [constructor|].
  now apply insert_desc_sorted.
Qed.

(** Stability: among the elements whose key equals [q], insertion puts
    the new element first and leaves the others in place. *)
Lemma insert_desc_stable (q : Q) (x : A) (l : list A) :
  List.filter (fun y => Qeq_bool (key y) q) (Py.insert_desc key x l)
  = List.filter (fun y => Qeq_bool (key y) q) (x :: l).
Proof.
  induction l as [|y t IH]; [reflexivity|].
  cbn [Py.insert_desc]. destruct (Qle_bool (key y) (key x)) eqn:E;
    [reflexivity|].
  cbn [List.filter] in *. rewrite IH.
  destruct (Qeq_bool (key x) q) eqn:Ex; [|reflexivity].
  destruct (Qeq_bool (key y) q) eqn:Ey; [|reflexivity].
  apply Qeq_bool_iff in Ex, Ey.
  assert (Qle_bool (key y) (key x) = true) as C.
  { apply Qle_bool_iff. rewrite Ex, Ey. lra. }
  congruence.
Qed.

Lemma sort_reverse_stable (q : Q) (l : list A) :
  List.filter (fun y => Qeq_bool (key y) q) (Py.sort_reverse key l)
  = List.filter (fun y => Qeq_bool (key y) q) l.
Proof.
  induction l as [|x t IH]; [reflexivity|].
  cbn [Py.sort_reverse foldr]. fold (Py.sort_reverse key t).
  rewrite insert_desc_stable. cbn [List.filter]. now rewrite IH.
Qed.

Lemma sort_reverse_nil_inv (l : list A) : Py.sort_reverse key l = [] -> l = [].
Proof.
  intros H. pose proof (sort_reverse_perm l) as P. rewrite H in P.
  symmetry in P. now apply Permutation_nil_r in P.
Qed.

End SortFacts.

Section SliceFacts.
Context {A : Type}.

Lemma slice_to_prefix (l : list A) (k : Z) : Py.slice_to l k `prefix_of` l.
Proof.
  unfold Py.slice_to. destruct (0 <=? k)%Z.
  - eexists. symmetry. apply take_drop.
  - eexists. symmetry. apply take_drop.
Qed.

Lemma slice_to_length (l : list A) (k : Z) :
  (0 <= k)%Z -> (Z.of_nat (length (Py.slice_to l k)) <= k)%Z.
Proof.
  intros H. unfold Py.slice_to. destruct (0 <=? k)%Z eqn:E; [|lia].
  rewrite length_take. lia.
Qed.

Lemma slice_to_nil_inv (l : list A) (k : Z) :
  (0 < k)%Z -> Py.slice_to l k = [] -> l = [].
Proof.
  intros H. unfold Py.slice_to. destruct (0 <=? k)%Z eqn:E; [|lia].
  destruct l as [|x t]; [reflexivity|].
  destruct (Z.to_nat k) eqn:En; [lia|]. discriminate.
Qed.

Lemma filter_prefix (P : A -> bool) (l1 l2 : list A) :
  l1 `prefix_of` l2 -> List.filter P l1 `prefix_of` List.filter P l2.
Proof.
  intros [t ->]. rewrite List.filter_app. now eexists.
Qed.

Lemma StronglySorted_prefix (R : A -> A -> Prop) (l1 l2 : list A) :
  l1 `prefix_of` l2 -> StronglySorted R l2 -> StronglySorted R l1.
Proof.
  intros [t ->]. revert t. induction l1 as [|x l IH]; intros t H.
  - constructor.
  - simpl in H. apply StronglySorted_inv in H as [H1 H2].
    constructor; [eapply IH; eassumption|].
    apply List.Forall_app in H2. tauto.
Qed.

End SliceFacts.

(** ** The comparable finder *)

Section Finder.
Context {M : MathLib}.
Local Open Scope Q_scope.
Import ComparableFinder.

Lemma join_sales_spec (s : Session) (p : Property) (sale : PropertySale) :
  (p, sale) ∈ join_sales s ->
  p ∈ properties s /\ sale ∈ property_sales s
  /\ id p = Some (property_id sale).
Proof.
  unfold join_sales. intros H.
  apply list_elem_of_bind in H as (p' & H & Hp).
  apply list_elem_of_bind in H as (sale' & H & Hs).
  apply list_elem_of_singleton in H. injection H as -> ->.
  apply list_elem_of_filter in Hs as [Hid Hs]. auto.
Qed.

Lemma potential_comps_spec (w : World) (subject : Property)
    (row : Property * PropertySale) :
  row ∈ potential_comps w subject ->
  row ∈ join_sales (db w)
  /\ eligible (clock w - Datetime.timedelta_days 180)%Z subject row = true.
Proof.
  unfold potential_comps. rewrite !list_elem_of_In, List.filter_In. tauto.
Qed.

Lemma scored_comps_spec (w : World) (subject : Property)
    (prop : Property) (sale : PropertySale) (score : Q) :
  (prop, sale, score) ∈ scored_comps w subject ->
  (prop, sale) ∈ potential_comps w subject
  /\ score = _calculate_similarity_score subject prop.
Proof.
  unfold scored_comps. intros H.
  apply list_elem_of_fmap in H as ([p s] & E & H).
  injection E as -> -> ->. auto.
Qed.

(** Whatever is returned was scored, hence eligible. *)
Lemma find_comparables_subset (w : World) (subject : Property)
    (max_results : Z) (x : Property * PropertySale * Q) :
  x ∈ find_comparables w subject max_results -> x ∈ scored_comps w subject.
Proof.
  unfold find_comparables. intros H.
  eapply elem_of_prefix in H; [|apply slice_to_prefix].
  now rewrite sort_reverse_perm in H.
Qed.

(** With a positive [max_results] the ranking is empty only when no
    candidate qualifies. *)
Lemma no_comparables_iff_empty_pool (w : World) (subject : Property)
    (max_results : Z) :
  (0 < max_results)%Z ->
  find_comparables w subject max_results = [] <-> potential_comps w subject = [].
Proof.
  intros Hk. unfold find_comparables, scored_comps. split.
  - intros H. apply slice_to_nil_inv in H; [|exact Hk].
    apply sort_reverse_nil_inv in H. now apply map_eq_nil in H.
  - intros ->. unfold Py.slice_to. simpl.
    destruct (0 <=? max_results)%Z; apply take_nil.
Qed.

(** C6: the ranking is sorted by non-increasing score, entries with equal
    scores keep their order in the candidate pool, there are at most
    [max_results] of them, the ranking is the head of the whole sorted
    pool, and it is empty when no candidate qualifies. *)
Theorem ranking_sorted_stable_truncated (w : World) (subject : Property)
    (max_results : Z) :
  (0 <= max_results)%Z ->
  let ranked := find_comparables w subject max_results in
  StronglySorted (descending snd) ranked
  /\ (forall q,
        with_score q ranked `prefix_of` with_score q (scored_comps w subject))
  /\ (Z.of_nat (length ranked) <= max_results)%Z
  /\ (exists rest,
        ranked ++ rest ≡ₚ scored_comps w subject
        /\ StronglySorted (descending snd) (ranked ++ rest))
  /\ (potential_comps w subject = [] -> ranked = []).
Proof.
  intros Hk ranked. unfold ranked, find_comparables.
  set (sorted := Py.sort_reverse (fun x => x.2) (scored_comps w subject)).
  pose proof (slice_to_prefix sorted max_results) as Hpre.
  assert (StronglySorted (descending snd) sorted) as Hsorted
    by apply (sort_reverse_sorted (fun x => x.2)).
  repeat split.
  - eapply StronglySorted_prefix; eassumption.
  - intros q. unfold with_score.
    rewrite <- (sort_reverse_stable (fun x => x.2) q (scored_comps w subject)).
    now apply filter_prefix.
  - now apply slice_to_length.
  - destruct Hpre as [rest Hrest]. exists rest. rewrite <- Hrest.
    split; [apply sort_reverse_perm|exact Hsorted].
  - intros Hnone. subst sorted. unfold scored_comps. rewrite Hnone.
    unfold Py.slice_to. simpl. destruct (0 <=? max_results)%Z; apply take_nil.
Qed.

(** X23: each returned candidate's sale is classified [sold] and dated no
    earlier than 180 days before the clock, whatever the subject; and no
    returned candidate has the subject's primary key, unless that key
    is 0. *)
Theorem comparables_exclude_subject (w : World) (subject : Property)
    (max_results : Z) (prop : Property) (sale : PropertySale) (score : Q) :
  (prop, sale, score) ∈ find_comparables w subject max_results ->
  sale_type sale = "sold"%string
  /\ (clock w - Datetime.timedelta_days 180 <= sale_date sale)%Z
  /\ (id subject <> Some 0%Z -> id prop <> id subject).
Proof.
  intros H. apply find_comparables_subset in H.
  apply scored_comps_spec in H as [H _].
  apply potential_comps_spec in H as [Hjoin Hel].
  apply join_sales_spec in Hjoin as (_ & _ & Hp).
  unfold eligible in Hel. cbn [fst snd] in Hel.
  apply andb_prop in Hel as [Hel Hne]. apply andb_prop in Hel as [Hdate Hsold].
  split; [now apply String.eqb_eq|]. split; [lia|].
  intros Hid. rewrite Hp in *. destruct (id subject) as [i|]; [|discriminate].
  assert (i <> 0%Z) by congruence.
  unfold Py.truthy_int in Hne. destruct (i =? 0)%Z eqn:E; [lia|].
  simpl in Hne. intros C. injection C as C.
  apply negb_true_iff in Hne. lia.
Qed.

End Finder.

Section FinderExamples.
Import ComparableFinder.

Lemma ranking_sorted_stable_truncated_witness :
  let ranked :=
    @find_comparables ApproxMath.math (Sample.main_street Sample.today)
      Sample.subject 6 in
  StronglySorted (descending snd) ranked /\ (Z.of_nat (length ranked) <= 6)%Z.
Proof.
  intros ranked.
  destruct (@ranking_sorted_stable_truncated ApproxMath.math
              (Sample.main_street Sample.today) Sample.subject 6)
    as (H1 & _ & H2 & _); [lia|]. split; assumption.
Defined.

Lemma comparables_exclude_subject_witness :
  sale_type (Sample.sold 1 2 400000 30) = "sold"%string
  /\ id Sample.twin <> id Sample.subject.
Proof.
  destruct (@comparables_exclude_subject ApproxMath.math
              (Sample.main_street Sample.today) Sample.subject 6
              Sample.twin (Sample.sold 1 2 400000 30)
              (@_calculate_similarity_score ApproxMath.math
                 Sample.subject Sample.twin))
    as (H1 & _ & H2).
  - vm_compute. left.
  - split; [exact H1|]. apply H2. discriminate.
Defined.


End FinderExamples.

(** ** The similarity score *)

Section Score.
Context {M : MathLib} {L : MathLibLaws M}.
Local Open Scope Q_scope.
Import ComparableFinder.

Lemma both_int_Some (a b : option Z) (x y : Z) :
  Py.both_int a b = Some (x, y) ->
  a = Some x /\ b = Some y /\ x <> 0%Z /\ y <> 0%Z.
Proof.
  unfold Py.both_int, Py.truthy_int. destruct a as [x'|], b as [y'|]; try easy.
  destruct (x' =? 0)%Z eqn:Ex, (y' =? 0)%Z eqn:Ey; simpl; try easy.
  intros [= -> ->]. repeat split; lia.
Qed.

Lemma both_int_None_l (a b : option Z) : a = None -> Py.both_int a b = None.
Proof. now intros ->. Qed.

Lemma both_int_None_r (a b : option Z) : b = None -> Py.both_int a b = None.
Proof. intros ->. now destruct a. Qed.

Lemma both_float_None_l (a b : option Q) : a = None -> Py.both_float a b = None.
Proof. now intros ->. Qed.

Lemma both_float_None_r (a b : option Q) : b = None -> Py.both_float a b = None.
Proof. intros ->. now destruct a. Qed.

(** The division of the size block never has a zero divisor. *)
Lemma size_divisor_nonzero (a b : option Z) (x y : Z) :
  Py.both_int a b = Some (x, y) -> Z.max x y <> 0%Z.
Proof. intros H. apply both_int_Some in H. lia. Qed.

(** A similarity [max(0, 1 - d)] with [d] non-negative, weighted by [w],
    adds between 0 and [w] to the score. *)
Lemma weighted_similarity_bounds (d w score : Q) :
  0 <= d -> 0 <= w ->
  score <= score + Py.max 0 (1 - d) * w
  /\ score + Py.max 0 (1 - d) * w <= score + w.
Proof.
  intros Hd Hw.
  destruct (max_cases 0 (1 - d)) as [[-> H] | [-> H]]; split; nra.
Qed.

Lemma ratio_nonneg (n d : Z) :
  (0 <= n)%Z -> (0 < d)%Z -> 0 <= inject_Z n / inject_Z d.
Proof.
  intros Hn Hd. apply Qle_shift_div_l.
  - change 0 with (inject_Z 0). now rewrite <- Zlt_Qlt.
  - rewrite Qmult_0_l. change 0 with (inject_Z 0). now rewrite <- Zle_Qle.
Qed.

Lemma size_block_bounds (subject comparable : Property) (score : Q) :
  valid_property subject -> valid_property comparable ->
  score <= size_block subject comparable score
  /\ size_block subject comparable score <= score + 30.
Proof.
  intros Vs Vc. unfold size_block.
  destruct (Py.both_int _ _) as [[s c]|] eqn:E; [|split; lra].
  apply both_int_Some in E as (Es & Ec & Hs & Hc).
  unfold valid_property in Vs, Vc. rewrite Es in Vs. rewrite Ec in Vc.
  apply weighted_similarity_bounds; [|lra].
  apply ratio_nonneg; lia.
Qed.

Lemma bedroom_block_bounds (subject comparable : Property) (score : Q) :
  score <= bedroom_block subject comparable score
  /\ bedroom_block subject comparable score <= score + 15.
Proof.
  unfold bedroom_block.
  destruct (Py.both_int _ _) as [[s c]|]; [|split; lra].
  apply weighted_similarity_bounds; [|lra].
  apply (ratio_nonneg _ 5); lia.
Qed.

Lemma bathroom_block_bounds (subject comparable : Property) (score : Q) :
  score <= bathroom_block subject comparable score
  /\ bathroom_block subject comparable score <= score + 15.
Proof.
  unfold bathroom_block.
  destruct (Py.both_float _ _) as [[s c]|]; [|split; lra].
  apply weighted_similarity_bounds; [|lra].
  pose proof (Qabs_nonneg (s - c)). div_by_literal. lra.
Qed.

Lemma age_block_bounds (subject comparable : Property) (score : Q) :
  score <= age_block subject comparable score
  /\ age_block subject comparable score <= score + 20.
Proof.
  unfold age_block.
  destruct (Py.both_int _ _) as [[s c]|]; [|split; lra].
  apply weighted_similarity_bounds; [|lra].
  apply (ratio_nonneg _ 50); lia.
Qed.

Lemma distance_nonneg (lat1 lon1 lat2 lon2 : Q) :
  0 <= _calculate_distance lat1 lon1 lat2 lon2.
Proof.
  unfold _calculate_distance.
  match goal with |- 0 <= 2 * asin ?x * 3956 =>
    pose proof (asin_nonneg x (sqrt_nonneg _)) end.
  lra.
Qed.

Lemma proximity_block_bounds (subject comparable : Property) (score : Q) :
  score <= proximity_block subject comparable score
  /\ proximity_block subject comparable score <= score + 20.
Proof.
  unfold proximity_block.
  destruct (Py.both_float (latitude subject) _) as [[slat slon]|];
    [|split; lra].
  destruct (Py.both_float (latitude comparable) _) as [[clat clon]|];
    [|split; lra].
  apply weighted_similarity_bounds; [|lra].
  pose proof (distance_nonneg slat slon clat clon). div_by_literal. lra.
Qed.

(** C5: between valid properties the similarity score lies in [0, 100],
    and it is 0 when each of the five factors has its field missing on at
    least one side. *)
Theorem similarity_score_range (subject comparable : Property) :
  valid_property subject -> valid_property comparable ->
  (0 <= _calculate_similarity_score subject comparable
   /\ _calculate_similarity_score subject comparable <= 100)
  /\ ((square_footage subject = None \/ square_footage comparable = None) ->
      (bedrooms subject = None \/ bedrooms comparable = None) ->
      (bathrooms subject = None \/ bathrooms comparable = None) ->
      (year_built subject = None \/ year_built comparable = None) ->
      (latitude subject = None \/ longitude subject = None
       \/ latitude comparable = None \/ longitude comparable = None) ->
      _calculate_similarity_score subject comparable = 0).
Proof.
  intros Vs Vc. split.
  - unfold _calculate_similarity_score.
    pose proof (size_block_bounds subject comparable 0 Vs Vc) as [A1 A2].
    set (s1 := size_block subject comparable 0) in *.
    pose proof (bedroom_block_bounds subject comparable s1) as [B1 B2].
    set (s2 := bedroom_block subject comparable s1) in *.
    pose proof (bathroom_block_bounds subject comparable s2) as [C1 C2].
    set (s3 := bathroom_block subject comparable s2) in *.
    pose proof (age_block_bounds subject comparable s3) as [D1 D2].
    set (s4 := age_block subject comparable s3) in *.
    pose proof (proximity_block_bounds subject comparable s4) as [E1 E2].
    split; lra.
  - intros Hsize Hbed Hbath Hage Hgeo.
    unfold _calculate_similarity_score, size_block, bedroom_block,
      bathroom_block, age_block, proximity_block.
    assert (Py.both_int (square_footage subject) (square_footage comparable)
            = None) as ->
      by (destruct Hsize; auto using both_int_None_l, both_int_None_r).
    assert (Py.both_int (bedrooms subject) (bedrooms comparable) = None) as ->
      by (destruct Hbed; auto using both_int_None_l, both_int_None_r).
    assert (Py.both_float (bathrooms subject) (bathrooms comparable) = None)
      as -> by (destruct Hbath; auto using both_float_None_l, both_float_None_r).
    assert (Py.both_int (year_built subject) (year_built comparable) = None)
      as -> by (destruct Hage; auto using both_int_None_l, both_int_None_r).
    destruct Hgeo as [H | [H | [H | H]]].
    + now rewrite (both_float_None_l _ _ H).
    + now rewrite (both_float_None_r _ _ H).
    + rewrite (both_float_None_l _ _ H). now destruct (Py.both_float _ _) as [[? ?]|].
    + rewrite (both_float_None_r _ _ H). now destruct (Py.both_float _ _) as [[? ?]|].
Qed.

End Score.

Section ApproxMathLaws.
Local Open Scope Q_scope.
Import ApproxMath.

Lemma newton_step_pos (x y : Q) : 0 < x -> 0 < y -> 0 < newton_step x y.
Proof.
  intros Hx Hy. unfold newton_step.
  assert (0 < x / y) as H.
  { apply Qlt_shift_div_l; [exact Hy|]. lra. }
  div_by_literal. lra.
Qed.

Lemma sqrt_approx_nonneg (x : Q) : 0 <= sqrt_approx x.
Proof.
  unfold sqrt_approx. destruct (Qle_bool x 0) eqn:E; [lra|].
  assert (0 < x) as Hx.
  { apply Qnot_le_lt. intros C. apply Qle_bool_iff in C. congruence. }
  apply Qlt_le_weak. rewrite Qred_correct.
  apply newton_step_pos; [exact Hx|]. rewrite Qred_correct.
  apply newton_step_pos; [exact Hx|]. rewrite Qred_correct.
  apply newton_step_pos; [exact Hx|]. div_by_literal. lra.
Qed.

Lemma asin_approx_nonneg (x : Q) : 0 <= x -> 0 <= x + x ^ 3 / 6.
Proof.
  intros H. assert (0 <= x ^ 3) by (simpl; nra). div_by_literal. lra.
Qed.

#[export] Instance math_laws : MathLibLaws math.
Proof.
  split; [exact sqrt_approx_nonneg|exact asin_approx_nonneg].
Qed.

End ApproxMathLaws.

Section ScoreExamples.
Import ComparableFinder.
Local Open Scope Q_scope.

Lemma similarity_score_range_witness :
  0 <= @_calculate_similarity_score ApproxMath.math Sample.subject Sample.cottage
  /\ @_calculate_similarity_score ApproxMath.math Sample.subject Sample.cottage
     <= 100.
Proof.
  refine (proj1 (@similarity_score_range ApproxMath.math math_laws
                   Sample.subject Sample.cottage _ _)).
  - unfold valid_property. simpl. lia.
  - unfold valid_property. simpl. lia.
Defined.

(** The subject scored against an identical house without coordinates:
    the four factors that apply are all at their maximum. *)
Example identical_house_scores_80 :
  @_calculate_similarity_score ApproxMath.math Sample.subject Sample.twin == 80.
Proof. reflexivity. Qed.

End ScoreExamples.

(** ** Zero and missing fields *)

Section ZeroAsMissing.
Context {M : MathLib}.
Local Open Scope Q_scope.
Import ComparableFinder AdjustmentCalculator.

Lemma both_int_blank (a b : option Z) :
  Py.both_int (blank_int a) (blank_int b) = Py.both_int a b.
Proof.
  unfold blank_int, Py.both_int, Py.truthy_int.
  destruct a as [x|], b as [y|]; try reflexivity.
  - destruct (x =? 0)%Z eqn:Ex, (y =? 0)%Z eqn:Ey; simpl;
      rewrite ?Ex, ?Ey; reflexivity.
  - destruct (x =? 0)%Z; reflexivity.
Qed.

Lemma both_float_blank (a b : option Q) :
  Py.both_float (blank_float a) (blank_float b) = Py.both_float a b.
Proof.
  unfold blank_float, Py.both_float, Py.truthy_float.
  destruct a as [x|], b as [y|]; try reflexivity.
  - destruct (Qeq_bool x 0) eqn:Ex, (Qeq_bool y 0) eqn:Ey; simpl;
      rewrite ?Ex, ?Ey; reflexivity.
  - destruct (Qeq_bool x 0); reflexivity.
Qed.

Lemma both_int_zero (a b : option Z) :
  is_zero_int a \/ is_zero_int b -> Py.both_int a b = None.
Proof.
  unfold is_zero_int, Py.both_int. intros [-> | ->]; [now destruct b|].
  destruct a as [x|]; [|reflexivity]. simpl. now rewrite andb_false_r.
Qed.

Lemma both_float_zero (a b : option Q) :
  is_zero_float a \/ is_zero_float b -> Py.both_float a b = None.
Proof.
  unfold is_zero_float, Py.both_float, Py.truthy_float.
  intros [(q & -> & E) | (q & -> & E)]; apply Qeq_bool_iff in E.
  - destruct b; [|reflexivity]. now rewrite E.
  - destruct a; [|reflexivity]. rewrite E. simpl. now rewrite andb_false_r.
Qed.

Lemma record_adjustment_same (name : string) (adj : Q) st :
  (record_adjustment name adj st).1 !! name
  = if Py.nonzero adj then Some adj else st.1 !! name.
Proof.
  unfold record_adjustment. destruct (Py.nonzero adj); [|reflexivity].
  simpl. apply lookup_insert_eq.
Qed.

(** A category is a key of the adjustment set exactly when its adjustment is
    not zero. *)
Lemma calculate_adjustments_lookup (self : adjustment_rates) (now : Z)
    (subject comparable : Property) (sale : PropertySale) :
  let adjustments := calculate_adjustments self now subject comparable sale in
  let entry (adj : Q) := if Py.nonzero adj then Some adj else None in
  adjustments !! "size_adjustment"%string
  = entry (_calculate_size_adjustment self subject comparable)
  /\ adjustments !! "bedroom_adjustment"%string
     = entry (_calculate_bedroom_adjustment self subject comparable)
  /\ adjustments !! "bathroom_adjustment"%string
     = entry (_calculate_bathroom_adjustment self subject comparable)
  /\ adjustments !! "age_adjustment"%string
     = entry (_calculate_age_adjustment self subject comparable)
  /\ adjustments !! "lot_size_adjustment"%string
     = entry (_calculate_lot_size_adjustment subject comparable)
  /\ adjustments !! "time_adjustment"%string
     = entry (_calculate_time_adjustment now sale).
Proof.
  intros adjustments entry. unfold adjustments, calculate_adjustments, entry.
  repeat split; rewrite lookup_insert_ne by discriminate;
    repeat (rewrite record_adjustment_other by discriminate);
    rewrite record_adjustment_same;
    (destruct (Py.nonzero _); [reflexivity|]);
    repeat (rewrite record_adjustment_other by discriminate);
    apply lookup_empty.
Qed.

Lemma score_zero_as_missing (subject comparable : Property) :
  _calculate_similarity_score (zero_as_missing subject) (zero_as_missing comparable)
  = _calculate_similarity_score subject comparable.
Proof.
  unfold _calculate_similarity_score, size_block, bedroom_block, bathroom_block,
    age_block, proximity_block, zero_as_missing.
  cbn [square_footage bedrooms bathrooms year_built latitude longitude].
  now rewrite !both_int_blank, !both_float_blank.
Qed.

Lemma adjustments_zero_as_missing (self : adjustment_rates) (now : Z)
    (subject comparable : Property) (sale : PropertySale) :
  calculate_adjustments self now (zero_as_missing subject)
    (zero_as_missing comparable) sale
  = calculate_adjustments self now subject comparable sale.
Proof.
  unfold calculate_adjustments, _calculate_size_adjustment,
    _calculate_bedroom_adjustment, _calculate_bathroom_adjustment,
    _calculate_age_adjustment, _calculate_lot_size_adjustment, zero_as_missing.
  cbn [square_footage bedrooms bathrooms year_built lot_size].
  now rewrite !both_int_blank, !both_float_blank.
Qed.

(** C10: a zero in one of the five optional numeric fields, on either side,
    is treated as a missing field.  The factor of that field leaves the score
    unchanged and its adjustment category is not a key of the adjustment set;
    replacing every such zero by a missing value changes neither the score
    nor the adjustment set. *)
Theorem zero_field_treated_as_missing (self : adjustment_rates) (now : Z)
    (subject comparable : Property) (sale : PropertySale) :
  let adjustments := calculate_adjustments self now subject comparable sale in
  (is_zero_int (square_footage subject) \/ is_zero_int (square_footage comparable) ->
     (forall score, size_block subject comparable score = score)
     /\ adjustments !! "size_adjustment"%string = None)
  /\ (is_zero_int (bedrooms subject) \/ is_zero_int (bedrooms comparable) ->
      (forall score, bedroom_block subject comparable score = score)
      /\ adjustments !! "bedroom_adjustment"%string = None)
  /\ (is_zero_float (bathrooms subject) \/ is_zero_float (bathrooms comparable) ->
      (forall score, bathroom_block subject comparable score = score)
      /\ adjustments !! "bathroom_adjustment"%string = None)
  /\ (is_zero_int (year_built subject) \/ is_zero_int (year_built comparable) ->
      (forall score, age_block subject comparable score = score)
      /\ adjustments !! "age_adjustment"%string = None)
  /\ (is_zero_int (lot_size subject) \/ is_zero_int (lot_size comparable) ->
      adjustments !! "lot_size_adjustment"%string = None)
  /\ _calculate_similarity_score subject comparable
     = _calculate_similarity_score (zero_as_missing subject)
         (zero_as_missing comparable)
  /\ adjustments
     = calculate_adjustments self now (zero_as_missing subject)
         (zero_as_missing comparable) sale.
Proof.
  intros adjustments.
  destruct (calculate_adjustments_lookup self now subject comparable sale)
    as (Hsize & Hbed & Hbath & Hage & Hlot & _).
  fold adjustments in Hsize, Hbed, Hbath, Hage, Hlot.
  split; [|split; [|split; [|split; [|split; [|split]]]]].
  - intros Hz. split.
    + intros score. unfold size_block. now rewrite both_int_zero.
    + rewrite Hsize. unfold _calculate_size_adjustment.
      now rewrite both_int_zero.
  - intros Hz. split.
    + intros score. unfold bedroom_block. now rewrite both_int_zero.
    + rewrite Hbed. unfold _calculate_bedroom_adjustment.
      now rewrite both_int_zero.
  - intros Hz. split.
    + intros score. unfold bathroom_block. now rewrite both_float_zero.
    + rewrite Hbath. unfold _calculate_bathroom_adjustment.
      now rewrite both_float_zero.
  - intros Hz. split.
    + intros score. unfold age_block. now rewrite both_int_zero.
    + rewrite Hage. unfold _calculate_age_adjustment.
      now rewrite both_int_zero.
  - intros Hz. rewrite Hlot. unfold _calculate_lot_size_adjustment.
    now rewrite both_int_zero.
  - symmetry. apply score_zero_as_missing.
  - symmetry. apply adjustments_zero_as_missing.
Qed.

End ZeroAsMissing.

(** ** The analysis *)

Section Analysis.
Context {M : MathLib}.
Local Open Scope Q_scope.
Import ComparableFinder AdjustmentCalculator PropertyService.

Lemma bind_ok {A B} (a : A) (k : A -> Py.result B) : Py.Ok a ≫= k = k a.
Proof. reflexivity. Qed.

Lemma bind_raise {A B} (e : Py.exn) (k : A -> Py.result B) :
  Py.Raise e ≫= k = Py.Raise e.
Proof. reflexivity. Qed.


(** When a body can only raise [e], the loop raises [e] as soon as one
    element makes the body raise. *)
Lemma for_each_raise {A B} (f : A -> Py.result B) (e : Py.exn) (l : list A) :
  Forall (fun x => f x = Py.Raise e \/ exists y, f x = Py.Ok y) l ->
  Exists (fun x => f x = Py.Raise e) l ->
  Py.for_each f l = Py.Raise e.
Proof.
  induction 1 as [|x t Hx Ht IH]; intros Hex; [inversion Hex|].
  simpl. destruct Hx as [Hx | [y Hy]].
  - now rewrite Hx.
  - rewrite Hy. inversion Hex as [? ? Hx' | ? ? Hex']; subst; [congruence|].
    simpl. now rewrite (IH Hex').
Qed.



(** C9: when no candidate qualifies the analysis returns, without raising,
    the fixed estimate 350000 / 450000 / 400000 with confidence 0.3 and the
    single placeholder entry. *)
Theorem empty_pool_gives_fallback (w : World) (subject : Property) :
  potential_comps w subject = [] ->
  perform_cma_analysis w subject
  = Py.Ok {|
      estimated_value :=
        {| low := 350000; high := 450000; most_likely := 400000 |};
      comparables :=
        [ {| ci_address := "No comparables found - using estimate";
             ci_sale_price := 400000;
             ci_sale_date := "2023-10-15";
             ci_square_feet := Some (square_feet_or_default subject);
             ci_bedrooms := None;
             ci_bathrooms := None;
             ci_year_built := None;
             ci_lot_size := None;
             ci_similarity_score := 0;
             ci_days_on_market := None;
             ci_adjustments := {[ "total"%string := 0 ]};
             ci_adjusted_price := 400000 |} ];
      confidence_score := 3 # 10;
      adjustment_summary := None
    |}.
Proof.
  intros H. unfold perform_cma_analysis, find_comparables, scored_comps.
  rewrite H. reflexivity.
Qed.

End Analysis.

Section AnalysisExamples.
Local Open Scope Q_scope.
Import ComparableFinder PropertyService.

Lemma empty_pool_gives_fallback_witness :
  exists r,
    @perform_cma_analysis ApproxMath.math Sample.no_sales Sample.subject = Py.Ok r
    /\ estimated_value r
       = {| low := 350000; high := 450000; most_likely := 400000 |}
    /\ confidence_score r = 3 # 10.
Proof.
  eexists. split.
  - apply (@empty_pool_gives_fallback ApproxMath.math Sample.no_sales
             Sample.subject).
    reflexivity.
  - split; reflexivity.
Defined.

End AnalysisExamples.

(** * Further properties of the engine *)

(** ** The individual adjustments *)

Section Adjustments.
Local Open Scope Q_scope.
Import AdjustmentCalculator.

Lemma both_int_present (a b : option Z) (x y : Z) :
  a = Some x -> b = Some y -> x <> 0%Z -> y <> 0%Z ->
  Py.both_int a b = Some (x, y).
Proof.
  intros -> -> Hx Hy. unfold Py.both_int, Py.truthy_int.
  destruct (x =? 0)%Z eqn:Ex; [lia|]. destruct (y =? 0)%Z eqn:Ey; [lia|].
  reflexivity.
Qed.

Lemma both_int_swap (a b : option Z) :
  Py.both_int b a = (fun p => (p.2, p.1)) <$> Py.both_int a b.
Proof.
  unfold Py.both_int. destruct a as [x|], b as [y|]; try reflexivity.
  rewrite andb_comm. now destruct (Py.truthy_int (Some x) && Py.truthy_int (Some y)).
Qed.

Lemma both_float_swap (a b : option Q) :
  Py.both_float b a = (fun p => (p.2, p.1)) <$> Py.both_float a b.
Proof.
  unfold Py.both_float. destruct a as [x|], b as [y|]; try reflexivity.
  rewrite andb_comm.
  now destruct (Py.truthy_float (Some x) && Py.truthy_float (Some y)).
Qed.

Lemma inject_Z_le (a b : Z) : (a <= b)%Z -> inject_Z a <= inject_Z b.
Proof. intros H. now rewrite <- Zle_Qle. Qed.

Lemma Qabs_inject_Z (z : Z) : Qabs (inject_Z z) = inject_Z (Z.abs z).
Proof. reflexivity. Qed.

(** X1: The age adjustment never exceeds 20 years' worth, and is exactly 20
    years' worth once the years built are 20 or more apart. *)
Theorem age_adjustment_capped (self : adjustment_rates)
    (subject comparable : Property) :
  (0 <= age_adjustment_per_year self)%Z ->
  Qabs (_calculate_age_adjustment self subject comparable)
  <= inject_Z (20 * age_adjustment_per_year self)
  /\ (forall ys yc,
        year_built subject = Some ys -> year_built comparable = Some yc ->
        ys <> 0%Z -> yc <> 0%Z ->
        ((20 <= ys - yc)%Z ->
         _calculate_age_adjustment self subject comparable
         = inject_Z (20 * age_adjustment_per_year self))
        /\ ((ys - yc <= -20)%Z ->
            _calculate_age_adjustment self subject comparable
            = inject_Z (-20 * age_adjustment_per_year self))).
Proof.
  intros Hrate. unfold _calculate_age_adjustment. split.
  - destruct (Py.both_int _ _) as [[s c]|].
    + rewrite Qabs_inject_Z. apply inject_Z_le. nia.
    + change (Qabs 0) with (inject_Z 0). apply inject_Z_le. lia.
  - intros ys yc Hs Hc Hys Hyc.
    rewrite (both_int_present _ _ ys yc Hs Hc Hys Hyc).
    split; intros H; f_equal.
    + replace (Z.max (-20) (Z.min 20 (ys - yc))) with 20%Z by lia. reflexivity.
    + replace (Z.max (-20) (Z.min 20 (ys - yc))) with (-20)%Z by lia. reflexivity.
Qed.

Lemma age_adjustment_capped_witness :
  Qabs (_calculate_age_adjustment init (Sample.house 1 "a" 1800 3 2 2020)
          (Sample.house 2 "b" 1800 3 2 1950)) <= 10000.
Proof.
  apply (age_adjustment_capped init). simpl. lia.
Defined.

(** The price per square foot used for a comparable of [c] square feet. *)
Lemma size_adjustment_present (self : adjustment_rates)
    (subject comparable : Property) (x y : Z) :
  square_footage subject = Some x -> square_footage comparable = Some y ->
  x <> 0%Z -> y <> 0%Z ->
  exists rate,
    _calculate_size_adjustment self subject comparable
    == inject_Z (x - y) * (inject_Z (price_per_sqft_base self) * rate)
    /\ 0 < rate.
Proof.
  intros Hs Hc Hx Hy. unfold _calculate_size_adjustment.
  rewrite (both_int_present _ _ x y Hs Hc Hx Hy).
  destruct (y <? 1500)%Z; [exists (12 # 10); split; [reflexivity|reflexivity]|].
  destruct (3000 <? y)%Z; [exists (8 # 10); split; [reflexivity|reflexivity]|].
  exists 1. split; [ring|reflexivity].
Qed.

(** X2: The sign convention of the size adjustment: with a positive base rate it
    is positive exactly when the subject is larger than the comparable,
    negative exactly when it is smaller, and zero when the sizes agree. *)
Theorem size_adjustment_sign (self : adjustment_rates)
    (subject comparable : Property) (x y : Z) :
  (0 < price_per_sqft_base self)%Z ->
  square_footage subject = Some x -> square_footage comparable = Some y ->
  x <> 0%Z -> y <> 0%Z ->
  (0 < _calculate_size_adjustment self subject comparable <-> (y < x)%Z)
  /\ (_calculate_size_adjustment self subject comparable < 0 <-> (x < y)%Z)
  /\ (_calculate_size_adjustment self subject comparable == 0 <-> x = y).
Proof.
  intros Hbase Hs Hc Hx Hy.
  destruct (size_adjustment_present self subject comparable x y Hs Hc Hx Hy)
    as (rate & E & Hrate).
  rewrite E. clear E.
  assert (0 < inject_Z (price_per_sqft_base self) * rate) as Hpps.
  { apply Qmult_lt_0_compat; [|exact Hrate].
    change 0 with (inject_Z 0). now rewrite <- Zlt_Qlt. }
  set (pps := inject_Z (price_per_sqft_base self) * rate) in *.
  destruct (Z.lt_trichotomy x y) as [H | [H | H]].
  - assert (inject_Z (x - y) <= inject_Z (-1)) as Hd by (apply inject_Z_le; lia).
    change (inject_Z (-1)) with (-1 # 1) in Hd.
    assert (inject_Z (x - y) * pps < 0) as Hneg by nra.
    repeat split; intros; try lia; try lra.
  - subst y. rewrite Z.sub_diag. change (inject_Z 0) with 0.
    repeat split; intros; try lia; try lra.
  - assert (inject_Z 1 <= inject_Z (x - y)) as Hd by (apply inject_Z_le; lia).
    change (inject_Z 1) with 1 in Hd.
    assert (0 < inject_Z (x - y) * pps) as Hpos by nra.
    repeat split; intros; try lia; try lra.
Qed.

Lemma size_adjustment_sign_witness :
  0 < _calculate_size_adjustment init (Sample.sized 1 "a" 2000)
        (Sample.sized 2 "b" 1000) <-> (1000 < 2000)%Z.
Proof.
  apply (size_adjustment_sign init (Sample.sized 1 "a" 2000)
           (Sample.sized 2 "b" 1000) 2000 1000); try reflexivity; lia.
Defined.

Lemma lot_size_adjustment_present (subject comparable : Property) (x y : Z) :
  lot_size subject = Some x -> lot_size comparable = Some y ->
  x <> 0%Z -> y <> 0%Z ->
  exists z,
    _calculate_lot_size_adjustment subject comparable = inject_Z z
    /\ ((Z.abs (x - y) <= 5000)%Z -> z = ((x - y) * 5)%Z)
    /\ ((5000 < x - y)%Z -> z = (25000 + (x - y - 5000) * 2)%Z)
    /\ ((x - y < -5000)%Z -> z = (- 25000 + (x - y + 5000) * 2)%Z).
Proof.
  intros Hs Hc Hx Hy. unfold _calculate_lot_size_adjustment.
  rewrite (both_int_present _ _ x y Hs Hc Hx Hy).
  destruct (Z.abs (x - y) <=? 5000)%Z eqn:E.
  - eexists. split; [reflexivity|]. repeat split; intros; lia.
  - destruct (0 <? x - y)%Z eqn:E'; eexists; (split; [reflexivity|]);
      repeat split; intros; lia.
Qed.

(** X3: The lot-size adjustment grows with the subject's lot: the rate drops
    from 5 to 2 dollars per square foot beyond a difference of 5000, but a
    larger lot never gets a smaller adjustment; and the adjustment is at most
    5 dollars per square foot of difference. *)
Theorem lot_size_adjustment_monotone (subject subject' comparable : Property)
    (x x' y : Z) :
  lot_size subject = Some x -> lot_size subject' = Some x' ->
  lot_size comparable = Some y ->
  x <> 0%Z -> x' <> 0%Z -> y <> 0%Z ->
  (x <= x')%Z ->
  _calculate_lot_size_adjustment subject comparable
  <= _calculate_lot_size_adjustment subject' comparable
  /\ Qabs (_calculate_lot_size_adjustment subject comparable)
     <= inject_Z (5 * Z.abs (x - y)).
Proof.
  intros Hs Hs' Hc Hx Hx' Hy Hle.
  destruct (lot_size_adjustment_present subject comparable x y Hs Hc Hx Hy)
    as (z & -> & A1 & A2 & A3).
  destruct (lot_size_adjustment_present subject' comparable x' y Hs' Hc Hx' Hy)
    as (z' & -> & B1 & B2 & B3).
  rewrite Qabs_inject_Z. split; apply inject_Z_le; lia.
Qed.

Lemma lot_size_adjustment_monotone_witness :
  _calculate_lot_size_adjustment (Sample.with_lot 1 "a" 9000)
    (Sample.with_lot 3 "c" 3000)
  <= _calculate_lot_size_adjustment (Sample.with_lot 2 "b" 12000)
       (Sample.with_lot 3 "c" 3000).
Proof.
  apply (lot_size_adjustment_monotone (Sample.with_lot 1 "a" 9000)
           (Sample.with_lot 2 "b" 12000) (Sample.with_lot 3 "c" 3000)
           9000 12000 3000); try reflexivity; lia.
Defined.

(** X4: Exchanging subject and comparable negates the bedroom, bathroom, age and
    lot-size adjustments. *)
Theorem adjustments_antisymmetric (self : adjustment_rates) (p q : Property) :
  _calculate_bedroom_adjustment self q p
  == - _calculate_bedroom_adjustment self p q
  /\ _calculate_bathroom_adjustment self q p
     == - _calculate_bathroom_adjustment self p q
  /\ _calculate_age_adjustment self q p == - _calculate_age_adjustment self p q
  /\ _calculate_lot_size_adjustment q p == - _calculate_lot_size_adjustment p q.
Proof.
  unfold _calculate_bedroom_adjustment, _calculate_bathroom_adjustment,
    _calculate_age_adjustment, _calculate_lot_size_adjustment.
  rewrite (both_int_swap (bedrooms p)), (both_float_swap (bathrooms p)),
    (both_int_swap (year_built p)), (both_int_swap (lot_size p)).
  repeat split.
  - destruct (Py.both_int _ _) as [[x y]|]; simpl; [|reflexivity].
    rewrite <- inject_Z_opp. f_equiv. lia.
  - destruct (Py.both_float _ _) as [[x y]|]; simpl; [|reflexivity]. ring.
  - destruct (Py.both_int _ _) as [[x y]|]; simpl; [|reflexivity].
    rewrite <- inject_Z_opp.
    replace (Z.max (-20) (Z.min 20 (y - x)))
      with (- Z.max (-20) (Z.min 20 (x - y)))%Z by lia.
    now rewrite Z.mul_opp_l.
  - destruct (Py.both_int _ _) as [[x y]|]; cbn [fmap option_fmap option_map fst snd];
      [|reflexivity].
    replace (Z.abs (y - x)) with (Z.abs (x - y)) by lia.
    destruct (Z.abs (x - y) <=? 5000)%Z eqn:E.
    + rewrite <- inject_Z_opp. f_equiv. lia.
    + rewrite <- inject_Z_opp.
      destruct (0 <? y - x)%Z eqn:E1, (0 <? x - y)%Z eqn:E2; f_equiv; lia.
Qed.

(** The size adjustment is not antisymmetric: the rate depends on the size
    of whichever property plays the comparable. *)
Example size_adjustment_not_antisymmetric :
  _calculate_size_adjustment init (Sample.sized 1 "a" 2000) (Sample.sized 2 "b" 1000)
  == 180000
  /\ _calculate_size_adjustment init (Sample.sized 2 "b" 1000) (Sample.sized 1 "a" 2000)
     == -150000.
Proof. split; reflexivity. Qed.

End Adjustments.

(** ** The adjustment set as a whole *)

Section WholeAdjustmentSet.
Local Open Scope Q_scope.
Import AdjustmentCalculator.

Lemma record_adjustment_entries (name : string) (adj : Q) st :
  name ∈ category_names ->
  (forall k v, st.1 !! k = Some v -> k ∈ category_names /\ ~ v == 0) ->
  forall k v,
    (record_adjustment name adj st).1 !! k = Some v ->
    k ∈ category_names /\ ~ v == 0.
Proof.
  intros Hname Hst k v. unfold record_adjustment.
  destruct (Py.nonzero adj) eqn:E; [|apply Hst]. cbn [fst].
  destruct (decide (name = k)) as [<- | Hne].
  - rewrite lookup_insert_eq. intros [= <-]. split; [exact Hname|].
    intros C. apply nonzero_false in C. congruence.
  - rewrite lookup_insert_ne by exact Hne. apply Hst.
Qed.

(** X5: The keys of the adjustment set are ["total"], always, and those of the
    six categories whose adjustment is not zero: no entry other than
    ["total"] ever holds a zero. *)
Theorem adjustment_set_keys (self : adjustment_rates) (now : Z)
    (subject comparable : Property) (sale : PropertySale) :
  let adjustments := calculate_adjustments self now subject comparable sale in
  is_Some (adjustments !! "total"%string)
  /\ (forall k v,
        adjustments !! k = Some v -> k <> "total"%string ->
        k ∈ category_names /\ ~ v == 0).
Proof.
  intros adjustments. unfold adjustments, calculate_adjustments. split.
  - rewrite lookup_insert_eq. now eexists.
  - intros k v Hk Hne. rewrite lookup_insert_ne in Hk by congruence.
    clear Hne. revert k v Hk.
    repeat (apply record_adjustment_entries;
            [unfold category_names; set_solver|]).
    intros k v. cbn [fst]. now rewrite lookup_empty.
Qed.

Lemma both_int_diag (a : option Z) (x y : Z) :
  Py.both_int a a = Some (x, y) -> x = y.
Proof.
  unfold Py.both_int. destruct a as [z|]; [|discriminate].
  destruct (Py.truthy_int (Some z) && Py.truthy_int (Some z)); congruence.
Qed.

Lemma both_float_diag (a : option Q) (x y : Q) :
  Py.both_float a a = Some (x, y) -> x = y.
Proof.
  unfold Py.both_float. destruct a as [z|]; [|discriminate].
  destruct (Py.truthy_float (Some z) && Py.truthy_float (Some z)); congruence.
Qed.

Lemma record_adjustment_zero (name : string) (adj : Q) st :
  adj == 0 -> record_adjustment name adj st = st.
Proof.
  intros H. unfold record_adjustment. apply nonzero_false in H. now rewrite H.
Qed.

(** X6: A comparable with the same five features as the subject, sold at most 90
    days ago, needs no adjustment: the adjustment set is exactly
    [{"total": 0}] and the adjusted price is the sale price. *)
Theorem like_for_like_needs_no_adjustment (self : adjustment_rates) (now : Z)
    (subject comparable : Property) (sale : PropertySale) :
  square_footage subject = square_footage comparable ->
  bedrooms subject = bedrooms comparable ->
  bathrooms subject = bathrooms comparable ->
  year_built subject = year_built comparable ->
  lot_size subject = lot_size comparable ->
  (Datetime.days_between now (sale_date sale) <= 90)%Z ->
  calculate_adjustments self now subject comparable sale
  = {[ "total"%string := 0 ]}
  /\ calculate_adjusted_price (sale_price sale)
       (calculate_adjustments self now subject comparable sale)
     == sale_price sale.
Proof.
  intros Hsize Hbed Hbath Hage Hlot Hdays.
  assert (calculate_adjustments self now subject comparable sale
          = {[ "total"%string := 0 ]}) as E.
  { unfold calculate_adjustments.
    rewrite (record_adjustment_zero "size_adjustment").
    2:{ unfold _calculate_size_adjustment. rewrite Hsize.
        destruct (Py.both_int _ _) as [[x y]|] eqn:B; [|reflexivity].
        apply both_int_diag in B as ->. rewrite Z.sub_diag.
        change (inject_Z 0) with 0. ring. }
    rewrite (record_adjustment_zero "bedroom_adjustment").
    2:{ unfold _calculate_bedroom_adjustment. rewrite Hbed.
        destruct (Py.both_int _ _) as [[x y]|] eqn:B; [|reflexivity].
        apply both_int_diag in B as ->. now rewrite Z.sub_diag. }
    rewrite (record_adjustment_zero "bathroom_adjustment").
    2:{ unfold _calculate_bathroom_adjustment. rewrite Hbath.
        destruct (Py.both_float _ _) as [[x y]|] eqn:B; [|reflexivity].
        apply both_float_diag in B as ->. ring. }
    rewrite (record_adjustment_zero "age_adjustment").
    2:{ unfold _calculate_age_adjustment. rewrite Hage.
        destruct (Py.both_int _ _) as [[x y]|] eqn:B; [|reflexivity].
        apply both_int_diag in B as ->. now rewrite Z.sub_diag. }
    rewrite (record_adjustment_zero "lot_size_adjustment").
    2:{ unfold _calculate_lot_size_adjustment. rewrite Hlot.
        destruct (Py.both_int _ _) as [[x y]|] eqn:B; [|reflexivity].
        apply both_int_diag in B as ->. now rewrite Z.sub_diag. }
    rewrite (record_adjustment_zero "time_adjustment").
    2:{ unfold _calculate_time_adjustment.
        now rewrite time_adjustment_for_recent. }
    reflexivity. }
  split; [exact E|]. rewrite E. unfold calculate_adjusted_price.
  rewrite lookup_singleton_eq. simpl. ring.
Qed.

Lemma like_for_like_needs_no_adjustment_witness :
  calculate_adjustments init Sample.today Sample.subject Sample.twin
    (Sample.sold 1 2 400000 30)
  = {[ "total"%string := 0 ]}.
Proof.
  apply (like_for_like_needs_no_adjustment init Sample.today Sample.subject
           Sample.twin (Sample.sold 1 2 400000 30)); try reflexivity.
  vm_compute. discriminate.
Defined.

End WholeAdjustmentSet.

(** ** What the finder returns *)

Section FinderResults.
Context {M : MathLib}.
Local Open Scope Q_scope.
Import ComparableFinder.

(** X8: Every returned triple is a stored property with one of its own stored
    sales, carrying the score of that property against the subject. *)
Theorem returned_comparables_are_stored (w : World) (subject : Property)
    (max_results : Z) (prop : Property) (sale : PropertySale) (score : Q) :
  (prop, sale, score) ∈ find_comparables w subject max_results ->
  prop ∈ properties (db w)
  /\ sale ∈ property_sales (db w)
  /\ id prop = Some (property_id sale)
  /\ score = _calculate_similarity_score subject prop.
Proof.
  intros H. apply find_comparables_subset in H.
  apply scored_comps_spec in H as [H ->].
  apply potential_comps_spec in H as [H _].
  apply join_sales_spec in H as (Hp & Hs & Hid). auto.
Qed.

Lemma slice_to_take {A} (l : list A) (k : Z) :
  (0 <= k)%Z -> Py.slice_to l k = take (Z.to_nat k) l.
Proof.
  intros H. unfold Py.slice_to. destruct (0 <=? k)%Z eqn:E; [reflexivity|lia].
Qed.

(** X9: Raising [max_results] only appends to the ranking: the shorter ranking is
    the head of the longer one. *)
Theorem larger_limit_extends_ranking (w : World) (subject : Property)
    (k k' : Z) :
  (0 <= k)%Z -> (k <= k')%Z ->
  find_comparables w subject k `prefix_of` find_comparables w subject k'.
Proof.
  intros H0 Hle. unfold find_comparables.
  rewrite !slice_to_take by lia.
  set (sorted := Py.sort_reverse _ _).
  replace (take (Z.to_nat k) sorted)
    with (take (Z.to_nat k) (take (Z.to_nat k') sorted)).
  - eexists. symmetry. apply take_drop.
  - rewrite take_take. f_equal. lia.
Qed.

(** X10: When no more than [max_results] candidates qualify, all of them are
    returned. *)
Theorem small_pool_is_returned_whole (w : World) (subject : Property)
    (max_results : Z) :
  (Z.of_nat (length (potential_comps w subject)) <= max_results)%Z ->
  find_comparables w subject max_results ≡ₚ scored_comps w subject.
Proof.
  intros H. unfold find_comparables.
  rewrite slice_to_take by lia.
  rewrite take_ge.
  - apply sort_reverse_perm.
  - rewrite (Permutation_length (sort_reverse_perm _ _)).
    unfold scored_comps. rewrite length_map. lia.
Qed.

End FinderResults.

Section FinderResultsExamples.
Import ComparableFinder.

Lemma returned_comparables_are_stored_witness :
  Sample.twin ∈ properties (db (Sample.main_street Sample.today)).
Proof.
  refine (proj1 (@returned_comparables_are_stored ApproxMath.math
                   (Sample.main_street Sample.today) Sample.subject 6
                   Sample.twin (Sample.sold 1 2 400000 30)
                   (@_calculate_similarity_score ApproxMath.math
                      Sample.subject Sample.twin) _)).
  vm_compute. left.
Defined.

Lemma larger_limit_extends_ranking_witness :
  @find_comparables ApproxMath.math (Sample.main_street Sample.today)
    Sample.subject 1
  `prefix_of` @find_comparables ApproxMath.math
                (Sample.main_street Sample.today) Sample.subject 6.
Proof.
  apply (@larger_limit_extends_ranking ApproxMath.math
           (Sample.main_street Sample.today) Sample.subject 1 6); lia.
Defined.

Lemma small_pool_is_returned_whole_witness :
  @find_comparables ApproxMath.math (Sample.main_street Sample.today)
    Sample.subject 6
  ≡ₚ @scored_comps ApproxMath.math (Sample.main_street Sample.today)
       Sample.subject.
Proof.
  apply (@small_pool_is_returned_whole ApproxMath.math
           (Sample.main_street Sample.today) Sample.subject 6).
  vm_compute. discriminate.
Defined.

End FinderResultsExamples.

(** ** What the analysis returns *)

Section AnalysisResults.
Context {M : MathLib}.
Local Open Scope Q_scope.
Import ComparableFinder AdjustmentCalculator PropertyService.

Lemma round_half_even_mono (p q : Q) :
  p <= q -> (Py.round_half_even p <= Py.round_half_even q)%Z.
Proof.
  intros H. unfold Py.round_half_even.
  pose proof (Qfloor_resp_le _ _ H) as Hf.
  pose proof (Qfloor_le p) as Hp1. pose proof (Qlt_floor p) as Hp2.
  pose proof (Qfloor_le q) as Hq1. pose proof (Qlt_floor q) as Hq2.
  destruct (Z.eq_dec (Qfloor p) (Qfloor q)) as [E | E].
  - rewrite <- E in *.
    destruct (Qcompare (p - inject_Z (Qfloor p)) (1 # 2)) eqn:Cp;
      destruct (Qcompare (q - inject_Z (Qfloor p)) (1 # 2)) eqn:Cq;
      try (destruct (Z.even (Qfloor p))); try lia; exfalso;
      first [apply Qeq_alt in Cp | apply Qlt_alt in Cp | apply Qgt_alt in Cp];
      first [apply Qeq_alt in Cq | apply Qlt_alt in Cq | apply Qgt_alt in Cq];
      lra.
  - assert (Qfloor p + 1 <= Qfloor q)%Z by lia.
    destruct (Qcompare (p - inject_Z (Qfloor p)) (1 # 2));
      destruct (Qcompare (q - inject_Z (Qfloor q)) (1 # 2));
      try (destruct (Z.even (Qfloor p))); try (destruct (Z.even (Qfloor q)));
      lia.
Qed.

Lemma round2_mono (p q : Q) : p <= q -> Py.round2 p <= Py.round2 q.
Proof.
  intros H. unfold Py.round2.
  assert (inject_Z (Py.round_half_even (p * 100))
          <= inject_Z (Py.round_half_even (q * 100))) as Hr.
  { apply inject_Z_le, round_half_even_mono. lra. }
  div_by_literal. lra.
Qed.

Lemma int_inject_Z (z : Z) : Py.int (inject_Z z) = z.
Proof.
  unfold Py.int. destruct (Qle_bool 0 (inject_Z z)).
  - apply Qfloor_Z.
  - apply Qceiling_Z.
Qed.

Lemma for_each_Forall2 {A B} (f : A -> Py.result B) (l : list A) (ys : list B) :
  Py.for_each f l = Py.Ok ys -> Forall2 (fun x y => f x = Py.Ok y) l ys.
Proof.
  revert ys. induction l as [|x t IH]; intros ys; simpl.
  - intros [= <-]. constructor.
  - destruct (f x) as [y|e] eqn:Hx; [|discriminate]. simpl.
    destruct (Py.for_each f t) as [ys'|e]; [|discriminate]. simpl.
    intros [= <-]. constructor; auto.
Qed.

Lemma estimate_cons (x : Q) (t : list Q) :
  estimate (x :: t)
  = Py.Ok {| low := Py.int (Py.min_list (x :: t) * (98 # 100));
             high := Py.int (Py.max_list (x :: t) * (102 # 100));
             most_likely :=
               Py.int (Py.sum (x :: t)
                       / inject_Z (Z.of_nat (length (x :: t)))) |}.
Proof.
  unfold estimate. now rewrite truediv_ok by apply length_divisor_nonzero.
Qed.

(** The ["total"] of a processed comparable is an integer. *)
Lemma processed_total_integral (w : World) (subject : Property)
    (row : Property * PropertySale * Q) :
  exists z : Z,
    ci_adjustments (process_comparable w subject row).1 !! "total"%string
    = Some (inject_Z z).
Proof.
  destruct row as [[prop sale] score]. cbn [process_comparable fst ci_adjustments].
  destruct (calculate_adjustments_state init (clock w) subject prop sale)
    as (st & _ & ->).
  eexists. apply lookup_insert_eq.
Qed.

Lemma processed_adjusted_price (w : World) (subject : Property)
    (row : Property * PropertySale * Q) :
  ci_adjusted_price (process_comparable w subject row).1
  = Py.int (process_comparable w subject row).2
  /\ exists t,
       ci_adjustments (process_comparable w subject row).1 !! "total"%string
       = Some t
       /\ (process_comparable w subject row).2
          = ci_sale_price (process_comparable w subject row).1 + t.
Proof.
  destruct (processed_total_integral w subject row) as [z Hz].
  destruct row as [[prop sale] score].
  cbn [process_comparable fst snd ci_adjustments ci_adjusted_price ci_sale_price]
    in *.
  split; [reflexivity|]. eexists. split; [exact Hz|].
  unfold calculate_adjusted_price. now rewrite Hz.
Qed.

(** The result of the analysis of a non-empty selection, spelled out. *)
Lemma analysis_shape (w : World) (subject : Property) (r : analysis)
    (c : Property * PropertySale * Q) (cs : list (Property * PropertySale * Q)) :
  find_comparables w subject 6 = c :: cs ->
  perform_cma_analysis w subject = Py.Ok r ->
  let processed := map (process_comparable w subject) (c :: cs) in
  let data := map fst processed in
  let n := inject_Z (Z.of_nat (length data)) in
  exists ratios totals,
    Py.for_each adjustment_ratio data = Py.Ok ratios
    /\ Py.for_each (fun comp => Py.getitem (ci_adjustments comp) "total") data
       = Py.Ok totals
    /\ estimate (map snd processed) = Py.Ok (estimated_value r)
    /\ comparables r = data
    /\ confidence_score r
       = Py.round2
           (Py.min (95 # 100)
              ((5 # 10) + inject_Z (Z.of_nat (length (c :: cs))) * (8 # 100)
               + Py.max 0 ((2 # 10) * (1 - Py.sum ratios / n))))
    /\ adjustment_summary r
       = Some {| average_adjustment := Py.int (Py.sum totals / n);
                 adjustment_range_min := Py.min_list totals;
                 adjustment_range_max := Py.max_list totals |}.
Proof.
  intros Hsel Hr processed data n.
  unfold perform_cma_analysis in Hr. rewrite Hsel in Hr.
  fold processed in Hr. fold data in Hr.
  destruct (estimate (map snd processed)) as [e|err] eqn:He; [|discriminate Hr].
  rewrite bind_ok in Hr.
  destruct (Py.for_each adjustment_ratio data) as [ratios|err] eqn:Hratios;
    [|discriminate Hr].
  rewrite bind_ok in Hr.
  assert (~ n == 0) as Hn.
  { unfold n, data, processed. rewrite !length_map. apply length_divisor_nonzero. }
  fold n in Hr. rewrite (truediv_ok _ _ Hn), bind_ok in Hr.
  destruct (Py.for_each (fun comp => Py.getitem (ci_adjustments comp) "total")
              data) as [totals|err] eqn:Htotals; [|discriminate Hr].
  rewrite bind_ok, (truediv_ok _ _ Hn), bind_ok in Hr.
  injection Hr as <-. exists ratios, totals. repeat split.
Qed.

(** X15: The confidence score is 0.3 when nothing was selected, lies between 0.58
    and 0.95 otherwise, and is 0.95 whenever six comparables were
    selected, whatever their adjustments. *)
Theorem confidence_score_range (w : World) (subject : Property) (r : analysis) :
  perform_cma_analysis w subject = Py.Ok r ->
  (find_comparables w subject 6 = [] -> confidence_score r = 3 # 10)
  /\ (find_comparables w subject 6 <> [] ->
      58 # 100 <= confidence_score r /\ confidence_score r <= 95 # 100)
  /\ (length (find_comparables w subject 6) = 6%nat ->
      confidence_score r == 95 # 100).
Proof.
  intros Hr. destruct (find_comparables w subject 6) as [|c cs] eqn:Hsel.
  - unfold perform_cma_analysis in Hr. rewrite Hsel in Hr.
    injection Hr as <-. repeat split; try reflexivity; try congruence.
    simpl. discriminate.
  - destruct (analysis_shape w subject r c cs Hsel Hr)
      as (ratios & totals & _ & _ & _ & _ & -> & _).
    set (boost := Py.max 0 _).
    set (base := (5 # 10) + inject_Z (Z.of_nat (length (c :: cs))) * (8 # 100)).
    assert (0 <= boost) as Hboost by apply max_spec.
    assert (58 # 100 <= base) as Hbase.
    { unfold base. cbn [length]. rewrite Nat2Z.inj_succ, <- Z.add_1_r.
      rewrite inject_Z_plus. change (inject_Z 1) with 1.
      assert (0 <= inject_Z (Z.of_nat (length cs))).
      { change 0 with (inject_Z 0). apply inject_Z_le. lia. }
      lra. }
    split; [congruence|]. split.
    + intros _.
      destruct (min_cases (95 # 100) (base + boost)) as [[-> H] | [-> H]].
      * split; [|apply Qle_refl].
        change (58 # 100 <= Py.round2 (95 # 100)). vm_compute. discriminate.
      * split.
        -- apply Qle_trans with (Py.round2 (58 # 100));
             [vm_compute; discriminate|]. apply round2_mono. lra.
        -- apply Qle_trans with (Py.round2 (95 # 100));
             [|vm_compute; discriminate]. apply round2_mono. lra.
    + intros Hlen.
      assert (base == 98 # 100) as Eb.
      { unfold base. rewrite Hlen. reflexivity. }
      destruct (min_cases (95 # 100) (base + boost)) as [[-> H] | [_ H]];
        [reflexivity|]. lra.
Qed.

(** X16: The adjustment summary is ordered: the smallest total is at most the
    average, and the average at most the largest total. *)
Theorem adjustment_summary_ordered (w : World) (subject : Property)
    (r : analysis) (summary : adjustment_summary_t) :
  perform_cma_analysis w subject = Py.Ok r ->
  adjustment_summary r = Some summary ->
  adjustment_range_min summary <= inject_Z (average_adjustment summary)
  /\ inject_Z (average_adjustment summary) <= adjustment_range_max summary.
Proof.
  intros Hr Hsum. destruct (find_comparables w subject 6) as [|c cs] eqn:Hsel.
  { unfold perform_cma_analysis in Hr. rewrite Hsel in Hr.
    injection Hr as <-. discriminate Hsum. }
  destruct (analysis_shape w subject r c cs Hsel Hr)
    as (ratios & totals & _ & Htotals & _ & _ & _ & Hs).
  apply for_each_Forall2 in Htotals.
  pose proof (Forall2_length _ _ _ Htotals) as Hlen. rewrite Hlen in Hs.
  rewrite Hs in Hsum. injection Hsum as <-.
  cbn [average_adjustment adjustment_range_min adjustment_range_max].
  assert (Forall (fun t => exists z : Z, t = inject_Z z) totals) as Hint.
  { clear Hlen Hs. revert Htotals. rewrite map_map.
    generalize (c :: cs). intros rows. revert totals.
    induction rows as [|row rows IH]; intros totals H; inversion H; subst;
      constructor; [|now apply IH].
    destruct (processed_total_integral w subject row) as [z Hz].
    match goal with Hy : Py.getitem _ _ = Py.Ok _ |- _ =>
      unfold Py.getitem in Hy; cbn [fst] in Hy; rewrite Hz in Hy;
      injection Hy as <- end.
    now exists z. }
  destruct totals as [|t ts]; [discriminate Hlen|].
  destruct (mean_between t ts) as [Hlo Hhi]. cbv zeta in Hlo, Hhi.
  destruct (min_list_spec t ts) as [Hmin _].
  destruct (max_list_spec t ts) as [Hmax _].
  rewrite List.Forall_forall in Hint.
  destruct (Hint _ Hmin) as [zmin Emin]. destruct (Hint _ Hmax) as [zmax Emax].
  rewrite Emin, Emax in *. split; apply inject_Z_le.
  - rewrite <- (int_inject_Z zmin). now apply int_mono.
  - rewrite <- (int_inject_Z zmax). now apply int_mono.
Qed.

(** X17: Each entry of the result is consistent: it has a ["total"], and its
    adjusted price is the sale price plus that total, truncated. *)
Theorem reported_prices_are_consistent (w : World) (subject : Property)
    (r : analysis) (entry : comparable_info) :
  perform_cma_analysis w subject = Py.Ok r ->
  entry ∈ comparables r ->
  exists t,
    ci_adjustments entry !! "total"%string = Some t
    /\ ci_adjusted_price entry = Py.int (ci_sale_price entry + t).
Proof.
  intros Hr Hin. destruct (find_comparables w subject 6) as [|c cs] eqn:Hsel.
  - unfold perform_cma_analysis in Hr. rewrite Hsel in Hr.
    injection Hr as <-. cbn [comparables fallback] in Hin.
    apply list_elem_of_singleton in Hin as ->.
    exists 0. split; [apply lookup_singleton_eq|reflexivity].
  - destruct (analysis_shape w subject r c cs Hsel Hr)
      as (_ & _ & _ & _ & _ & Hdata & _).
    rewrite Hdata, map_map in Hin.
    apply list_elem_of_fmap in Hin as (row & -> & _).
    destruct (processed_adjusted_price w subject row) as (E & t & Ht & Et).
    exists t. split; [exact Ht|]. now rewrite E, Et.
Qed.

(** X18: The point estimate always lies between the smallest and the largest
    adjusted price reported for the comparables. *)
Theorem most_likely_between_adjusted_prices (w : World) (subject : Property)
    (r : analysis) :
  perform_cma_analysis w subject = Py.Ok r ->
  exists lo hi,
    lo ∈ comparables r /\ hi ∈ comparables r
    /\ (ci_adjusted_price lo <= most_likely (estimated_value r))%Z
    /\ (most_likely (estimated_value r) <= ci_adjusted_price hi)%Z.
Proof.
  intros Hr. destruct (find_comparables w subject 6) as [|c cs] eqn:Hsel.
  - unfold perform_cma_analysis in Hr. rewrite Hsel in Hr. injection Hr as <-.
    exists (fallback_comparable subject), (fallback_comparable subject).
    cbn [comparables fallback estimated_value most_likely].
    repeat split; try apply list_elem_of_singleton; try reflexivity;
      simpl; lia.
  - destruct (analysis_shape w subject r c cs Hsel Hr)
      as (_ & _ & _ & _ & He & Hdata & _).
    rewrite map_map in He. cbn [map] in He. rewrite estimate_cons in He.
    injection He as He. rewrite <- He. cbn [most_likely].
    set (prices := (process_comparable w subject c).2
                   :: map (fun x => (process_comparable w subject x).2) cs).
    destruct (mean_between (process_comparable w subject c).2
                (map (fun x => (process_comparable w subject x).2) cs))
      as [Hlo Hhi].
    cbv zeta in Hlo, Hhi. fold prices in Hlo, Hhi.
    destruct (min_list_spec (process_comparable w subject c).2
                (map (fun x => (process_comparable w subject x).2) cs))
      as [Hmin _].
    destruct (max_list_spec (process_comparable w subject c).2
                (map (fun x => (process_comparable w subject x).2) cs))
      as [Hmax _].
    fold prices in Hmin, Hmax.
    assert (forall p, In p prices ->
              exists entry, entry ∈ comparables r
                            /\ ci_adjusted_price entry = Py.int p) as Hentry.
    { intros p Hp.
      change prices
        with (map (fun x => (process_comparable w subject x).2) (c :: cs)) in Hp.
      apply List.in_map_iff in Hp as (row & <- & Hrow).
      exists (process_comparable w subject row).1. split.
      - rewrite Hdata, map_map. apply list_elem_of_fmap. exists row.
        split; [reflexivity|]. now apply list_elem_of_In.
      - apply processed_adjusted_price. }
    destruct (Hentry _ Hmin) as (lo & Hlo_in & Elo).
    destruct (Hentry _ Hmax) as (hi & Hhi_in & Ehi).
    exists lo, hi. rewrite Elo, Ehi.
    repeat split; try assumption; now apply int_mono.
Qed.

(** X19: The entries of the result follow the ranking: one entry per selected
    comparable, in the same order, with the score rounded to two places. *)
Theorem entries_follow_ranking (w : World) (subject : Property) (r : analysis) :
  perform_cma_analysis w subject = Py.Ok r ->
  find_comparables w subject 6 <> [] ->
  map (fun entry =>
         (ci_address entry, ci_sale_price entry, ci_similarity_score entry))
      (comparables r)
  = map (fun row => (address row.1.1, sale_price row.1.2, Py.round2 row.2))
      (find_comparables w subject 6).
Proof.
  intros Hr Hne. destruct (find_comparables w subject 6) as [|c cs] eqn:Hsel;
    [congruence|].
  destruct (analysis_shape w subject r c cs Hsel Hr)
    as (_ & _ & _ & _ & _ & -> & _).
  rewrite !map_map. apply map_ext. now intros [[prop sale] score].
Qed.

(** X20: A selected comparable is at most 180 days old, so its time adjustment
    never reaches the 2% cap: it is at most 1% of a non-negative price. *)
Theorem selected_time_adjustment_at_most_one_percent (w : World)
    (subject : Property) (max_results : Z)
    (prop : Property) (sale : PropertySale) (score : Q) :
  (prop, sale, score) ∈ find_comparables w subject max_results ->
  0 <= sale_price sale ->
  (Datetime.days_between (clock w) (sale_date sale) <= 180)%Z
  /\ _calculate_time_adjustment (clock w) sale <= (1 # 100) * sale_price sale.
Proof.
  intros H Hprice. apply find_comparables_subset in H.
  apply scored_comps_spec in H as [H _].
  apply potential_comps_spec in H as [_ Hel].
  unfold eligible in Hel. cbn [fst snd] in Hel.
  apply andb_prop in Hel as [Hel _]. apply andb_prop in Hel as [Hdate _].
  assert (Datetime.days_between (clock w) (sale_date sale) <= 180)%Z as Hdays.
  { unfold Datetime.days_between, Datetime.timedelta_days in *.
    apply Z.div_le_upper_bound; [reflexivity|]. lia. }
  split; [exact Hdays|]. unfold _calculate_time_adjustment.
  set (d := Datetime.days_between (clock w) (sale_date sale)) in *.
  destruct (Z_le_gt_dec d 90) as [Hd | Hd].
  - rewrite time_adjustment_for_recent by exact Hd. lra.
  - rewrite time_adjustment_for_old by lia.
    assert (inject_Z (d - 90) <= inject_Z 90) as Hq by (apply inject_Z_le; lia).
    change (inject_Z 90) with 90 in Hq.
    pose proof (quarters_old_nonneg d ltac:(lia)) as Hq0.
    destruct (min_cases (2 # 100) ((1 # 100) * (inject_Z (d - 90) / 90)))
      as [[-> Hm] | [-> Hm]]; div_by_literal; nra.
Qed.

End AnalysisResults.

Section AnalysisResultsExamples.
Local Open Scope Q_scope.
Import ComparableFinder AdjustmentCalculator PropertyService.

Lemma confidence_score_range_witness :
  exists r,
    @perform_cma_analysis ApproxMath.math (Sample.main_street Sample.today)
      Sample.subject = Py.Ok r
    /\ 58 # 100 <= confidence_score r /\ confidence_score r <= 95 # 100.
Proof.
  eexists. split; [vm_compute; reflexivity|].
  refine (proj1 (proj2 (@confidence_score_range ApproxMath.math
                          (Sample.main_street Sample.today) Sample.subject _ _))
            _).
  - vm_compute. reflexivity.
  - vm_compute. discriminate.
Defined.

Lemma adjustment_summary_ordered_witness :
  exists r summary,
    @perform_cma_analysis ApproxMath.math (Sample.main_street Sample.today)
      Sample.subject = Py.Ok r
    /\ adjustment_summary r = Some summary
    /\ adjustment_range_min summary <= inject_Z (average_adjustment summary).
Proof.
  eexists. eexists. split; [vm_compute; reflexivity|]. split; [reflexivity|].
  refine (proj1 (@adjustment_summary_ordered ApproxMath.math
                   (Sample.main_street Sample.today) Sample.subject _ _ _ _)).
  - vm_compute. reflexivity.
  - reflexivity.
Defined.

Lemma reported_prices_are_consistent_witness :
  exists r entry t,
    @perform_cma_analysis ApproxMath.math (Sample.main_street Sample.today)
      Sample.subject = Py.Ok r
    /\ entry ∈ comparables r
    /\ ci_adjustments entry !! "total"%string = Some t
    /\ ci_adjusted_price entry = Py.int (ci_sale_price entry + t).
Proof.
  eexists.
  destruct (@reported_prices_are_consistent ApproxMath.math
              (Sample.main_street Sample.today) Sample.subject _ _
              ltac:(vm_compute; reflexivity) ltac:(left))
    as (t & Ht & Ep).
  eexists. exists t. split; [reflexivity|]. split; [left|]. split; assumption.
Defined.

Lemma most_likely_between_adjusted_prices_witness :
  exists r lo hi,
    @perform_cma_analysis ApproxMath.math Sample.hill_road Sample.studio
    = Py.Ok r
    /\ (ci_adjusted_price lo <= most_likely (estimated_value r))%Z
    /\ (most_likely (estimated_value r) <= ci_adjusted_price hi)%Z.
Proof.
  eexists.
  destruct (@most_likely_between_adjusted_prices ApproxMath.math
              Sample.hill_road Sample.studio _ ltac:(vm_compute; reflexivity))
    as (lo & hi & _ & _ & H1 & H2).
  exists lo, hi. split; [reflexivity|]. split; assumption.
Defined.

Lemma entries_follow_ranking_witness :
  exists r,
    @perform_cma_analysis ApproxMath.math (Sample.main_street Sample.today)
      Sample.subject = Py.Ok r
    /\ map ci_address (comparables r) = ["2 Main St"; "3 Main St"]%string.
Proof.
  eexists. split; [vm_compute; reflexivity|].
  pose proof (@entries_follow_ranking ApproxMath.math
                (Sample.main_street Sample.today) Sample.subject _
                ltac:(vm_compute; reflexivity) ltac:(vm_compute; discriminate))
    as H.
  apply (f_equal (map (fun x => x.1.1))) in H. rewrite !map_map in H.
  cbn [fst] in H. etransitivity; [exact H|]. vm_compute. reflexivity.
Defined.

Lemma selected_time_adjustment_at_most_one_percent_witness :
  _calculate_time_adjustment Sample.today (Sample.sold 2 3 300000 100)
  <= (1 # 100) * 300000.
Proof.
  refine (proj2 (@selected_time_adjustment_at_most_one_percent ApproxMath.math
                   (Sample.main_street Sample.today) Sample.subject 6
                   Sample.cottage (Sample.sold 2 3 300000 100)
                   (@_calculate_similarity_score ApproxMath.math
                      Sample.subject Sample.cottage) _ _)).
  - vm_compute. right. left.
  - vm_compute. discriminate.
Defined.

End AnalysisResultsExamples.

(** ** The score of a pair, either way round *)

Section ScoreSymmetry.
Context {M : MathLib} {S : MathLibSymmetry M}.
Local Open Scope Q_scope.
Import ComparableFinder.

Lemma max_proper (a b b' : Q) : b == b' -> Py.max a b == Py.max a b'.
Proof.
  intros H.
  destruct (max_cases a b) as [[-> H1] | [-> H1]],
    (max_cases a b') as [[-> H2] | [-> H2]]; lra.
Qed.

Lemma weighted_similarity_proper (d d' w score score' : Q) :
  d == d' -> score == score' ->
  score + Py.max 0 (1 - d) * w == score' + Py.max 0 (1 - d') * w.
Proof.
  intros Hd Hs. rewrite Hs.
  rewrite (max_proper 0 (1 - d) (1 - d')) by now rewrite Hd. reflexivity.
Qed.

Lemma size_block_sym (a b : Property) (s s' : Q) :
  s == s' -> size_block a b s == size_block b a s'.
Proof.
  intros Hs. unfold size_block.
  rewrite (both_int_swap (square_footage a) (square_footage b)).
  destruct (Py.both_int (square_footage a) (square_footage b)) as [[x y]|];
    cbn [fmap option_fmap option_map fst snd]; [|exact Hs].
  replace (y - x)%Z with (- (x - y))%Z by lia.
  rewrite Z.abs_opp, (Z.max_comm y x).
  now apply weighted_similarity_proper.
Qed.

Lemma bedroom_block_sym (a b : Property) (s s' : Q) :
  s == s' -> bedroom_block a b s == bedroom_block b a s'.
Proof.
  intros Hs. unfold bedroom_block.
  rewrite (both_int_swap (bedrooms a) (bedrooms b)).
  destruct (Py.both_int (bedrooms a) (bedrooms b)) as [[x y]|];
    cbn [fmap option_fmap option_map fst snd]; [|exact Hs].
  replace (y - x)%Z with (- (x - y))%Z by lia. rewrite Z.abs_opp.
  now apply weighted_similarity_proper.
Qed.

Lemma bathroom_block_sym (a b : Property) (s s' : Q) :
  s == s' -> bathroom_block a b s == bathroom_block b a s'.
Proof.
  intros Hs. unfold bathroom_block.
  rewrite (both_float_swap (bathrooms a) (bathrooms b)).
  destruct (Py.both_float (bathrooms a) (bathrooms b)) as [[x y]|];
    cbn [fmap option_fmap option_map fst snd]; [|exact Hs].
  rewrite (Qabs_Qminus y x). now apply weighted_similarity_proper.
Qed.

Lemma age_block_sym (a b : Property) (s s' : Q) :
  s == s' -> age_block a b s == age_block b a s'.
Proof.
  intros Hs. unfold age_block.
  rewrite (both_int_swap (year_built a) (year_built b)).
  destruct (Py.both_int (year_built a) (year_built b)) as [[x y]|];
    cbn [fmap option_fmap option_map fst snd]; [|exact Hs].
  replace (y - x)%Z with (- (x - y))%Z by lia. rewrite Z.abs_opp.
  now apply weighted_similarity_proper.
Qed.

Lemma sin_sq_half_difference (x y : Q) :
  sin ((x - y) / 2) ^ 2 == sin ((y - x) / 2) ^ 2.
Proof.
  rewrite <- (sin_sq_even ((y - x) / 2)).
  rewrite (sin_proper ((x - y) / 2) (- ((y - x) / 2))); [reflexivity|].
  field.
Qed.

(** The distance does not depend on which point comes first. *)
Lemma distance_sym (lat1 lon1 lat2 lon2 : Q) :
  _calculate_distance lat1 lon1 lat2 lon2
  == _calculate_distance lat2 lon2 lat1 lon1.
Proof.
  unfold _calculate_distance. cbv zeta.
  apply Qmult_comp; [|reflexivity]. apply Qmult_comp; [reflexivity|].
  apply asin_proper, sqrt_proper.
  rewrite (sin_sq_half_difference (radians lat2)).
  rewrite (sin_sq_half_difference (radians lon2)). ring.
Qed.

Lemma proximity_block_sym (a b : Property) (s s' : Q) :
  s == s' -> proximity_block a b s == proximity_block b a s'.
Proof.
  intros Hs. unfold proximity_block.
  destruct (Py.both_float (latitude a) (longitude a)) as [[alat alon]|],
    (Py.both_float (latitude b) (longitude b)) as [[blat blon]|];
    try exact Hs.
  apply weighted_similarity_proper; [|exact Hs].
  now rewrite (distance_sym alat alon blat blon).
Qed.

(** X12: The similarity score is symmetric: scoring a comparable against a
    subject gives the score of the subject against the comparable. *)
Theorem similarity_score_symmetric (a b : Property) :
  _calculate_similarity_score a b == _calculate_similarity_score b a.
Proof.
  unfold _calculate_similarity_score.
  apply proximity_block_sym, age_block_sym, bathroom_block_sym,
    bedroom_block_sym, size_block_sym. reflexivity.
Qed.

End ScoreSymmetry.

Section ApproxMathSymmetry.
Local Open Scope Q_scope.
Import ApproxMath.

Lemma sqrt_approx_proper (x y : Q) : x == y -> sqrt_approx x == sqrt_approx y.
Proof.
  intros H. unfold sqrt_approx.
  assert (Qle_bool x 0 = Qle_bool y 0) as -> by now rewrite H.
  destruct (Qle_bool y 0); [reflexivity|].
  unfold newton_step. now rewrite H.
Qed.

#[export] Instance math_symmetry : MathLibSymmetry math.
Proof.
  split.
  - intros x y H. cbn [sin math]. now rewrite H.
  - intros x. cbn [sin math]. simpl. field.
  - intros x y H. cbn [asin math]. now rewrite H.
  - exact sqrt_approx_proper.
Qed.

End ApproxMathSymmetry.

Section ScoreSymmetryExamples.
Local Open Scope Q_scope.
Import ComparableFinder.

Lemma similarity_score_symmetric_witness :
  @_calculate_similarity_score ApproxMath.math
    (Sample.located 1 "1 Map Rd" (407 # 10) (-74)) Sample.subject
  == @_calculate_similarity_score ApproxMath.math
       Sample.subject (Sample.located 1 "1 Map Rd" (407 # 10) (-74)).
Proof.
  apply (@similarity_score_symmetric ApproxMath.math math_symmetry).
Defined.

End ScoreSymmetryExamples.

(** ** How high a score can get *)

Section ScoreLevels.
Context {M : MathLib}.
Local Open Scope Q_scope.
Import ComparableFinder.

Lemma both_int_same (a : option Z) :
  Py.truthy_int a = true -> exists x, Py.both_int a a = Some (x, x).
Proof.
  destruct a as [x|]; [|discriminate]. intros H. exists x.
  unfold Py.both_int. now rewrite H.
Qed.

Lemma both_float_same (a : option Q) :
  Py.truthy_float a = true -> exists x, Py.both_float a a = Some (x, x).
Proof.
  destruct a as [x|]; [|discriminate]. intros H. exists x.
  unfold Py.both_float. now rewrite H.
Qed.

(** A factor whose difference is zero adds its whole weight. *)
Lemma full_similarity (d w score : Q) :
  d == 0 -> score + Py.max 0 (1 - d) * w == score + w.
Proof.
  intros H. destruct (max_cases 0 (1 - d)) as [[-> H1] | [-> H1]]; nra.
Qed.

Lemma proximity_block_off (subject comparable : Property) (score : Q) :
  Py.truthy_float (latitude subject) && Py.truthy_float (longitude subject)
  && Py.truthy_float (latitude comparable)
  && Py.truthy_float (longitude comparable) = false ->
  proximity_block subject comparable score = score.
Proof.
  intros H. unfold proximity_block, Py.both_float.
  destruct (latitude subject) as [slat|], (longitude subject) as [slon|],
    (latitude comparable) as [clat|], (longitude comparable) as [clon|];
    try reflexivity;
    try (destruct (Py.truthy_float (Some slat) && Py.truthy_float (Some slon));
         reflexivity).
  destruct (Py.truthy_float (Some slat) && Py.truthy_float (Some slon));
    [|reflexivity].
  rewrite <- andb_assoc in H. cbn [andb] in H. now rewrite H.
Qed.

(** X13: Without usable coordinates on both sides the score of valid properties
    stops at 80: the twenty points of the proximity factor are out of
    reach.  A latitude or longitude of 0 counts as unusable, like a missing
    one. *)
Theorem score_without_coordinates_at_most_80 (subject comparable : Property) :
  valid_property subject -> valid_property comparable ->
  Py.truthy_float (latitude subject) && Py.truthy_float (longitude subject)
  && Py.truthy_float (latitude comparable)
  && Py.truthy_float (longitude comparable) = false ->
  _calculate_similarity_score subject comparable <= 80.
Proof.
  intros Vs Vc Hgeo. unfold _calculate_similarity_score.
  rewrite proximity_block_off by exact Hgeo.
  pose proof (size_block_bounds subject comparable 0 Vs Vc) as [A1 A2].
  set (s1 := size_block subject comparable 0) in *.
  pose proof (bedroom_block_bounds subject comparable s1) as [B1 B2].
  set (s2 := bedroom_block subject comparable s1) in *.
  pose proof (bathroom_block_bounds subject comparable s2) as [C1 C2].
  set (s3 := bathroom_block subject comparable s2) in *.
  pose proof (age_block_bounds subject comparable s3) as [D1 D2].
  lra.
Qed.

(** X14: A comparable that has the subject's square footage, bedrooms, bathrooms
    and year of construction, all of them known and not zero, scores 80 plus
    whatever the proximity factor adds; without usable coordinates it scores
    exactly 80. *)
Theorem matching_features_score (subject comparable : Property) :
  square_footage comparable = square_footage subject ->
  bedrooms comparable = bedrooms subject ->
  bathrooms comparable = bathrooms subject ->
  year_built comparable = year_built subject ->
  Py.truthy_int (square_footage subject) = true ->
  Py.truthy_int (bedrooms subject) = true ->
  Py.truthy_float (bathrooms subject) = true ->
  Py.truthy_int (year_built subject) = true ->
  _calculate_similarity_score subject comparable
  == proximity_block subject comparable 80
  /\ (Py.truthy_float (latitude subject) && Py.truthy_float (longitude subject)
      && Py.truthy_float (latitude comparable)
      && Py.truthy_float (longitude comparable) = false ->
      _calculate_similarity_score subject comparable == 80).
Proof.
  intros Esize Ebed Ebath Eage Hsize Hbed Hbath Hage.
  assert (age_block subject comparable
            (bathroom_block subject comparable
               (bedroom_block subject comparable
                  (size_block subject comparable 0))) == 80) as E.
  { unfold age_block, bathroom_block, bedroom_block, size_block.
    rewrite Esize, Ebed, Ebath, Eage.
    destruct (both_int_same _ Hsize) as [sz ->].
    destruct (both_int_same _ Hbed) as [bd ->].
    destruct (both_float_same _ Hbath) as [bt ->].
    destruct (both_int_same _ Hage) as [yr ->].
    cbv zeta. rewrite !Z.sub_diag. change (inject_Z (Z.abs 0)) with 0.
    assert (bt - bt == 0) as Hb by ring.
    rewrite (full_similarity (0 / inject_Z (Z.max sz sz)))
      by (unfold Qdiv; ring).
    rewrite (full_similarity (0 / 5)) by reflexivity.
    rewrite (full_similarity (Qabs (bt - bt) / 3)) by (now rewrite Hb).
    rewrite (full_similarity (0 / 50)) by reflexivity.
    reflexivity. }
  assert (forall s s', s == s' ->
            proximity_block subject comparable s
            == proximity_block subject comparable s') as Hprox.
  { intros s s' Hs. unfold proximity_block.
    destruct (Py.both_float (latitude subject) _) as [[slat slon]|];
      [|exact Hs].
    destruct (Py.both_float (latitude comparable) _) as [[clat clon]|];
      [|exact Hs].
    now rewrite Hs. }
  split.
  - unfold _calculate_similarity_score. now apply Hprox.
  - intros Hgeo. unfold _calculate_similarity_score.
    rewrite proximity_block_off by exact Hgeo. exact E.
Qed.

End ScoreLevels.

Section ScoreLevelsExamples.
Local Open Scope Q_scope.
Import ComparableFinder.

Lemma score_without_coordinates_at_most_80_witness :
  @_calculate_similarity_score ApproxMath.math Sample.subject Sample.cottage
  <= 80.
Proof.
  apply (@score_without_coordinates_at_most_80 ApproxMath.math
           Sample.subject Sample.cottage).
  - unfold valid_property. simpl. lia.
  - unfold valid_property. simpl. lia.
  - reflexivity.
Defined.

Lemma matching_features_score_witness :
  @_calculate_similarity_score ApproxMath.math Sample.subject Sample.twin == 80.
Proof.
  refine (proj2 (@matching_features_score ApproxMath.math
                   Sample.subject Sample.twin _ _ _ _ _ _ _ _) _);
    reflexivity.
Defined.

End ScoreLevelsExamples.

(** ** How many comparables *)

Section Counts.
Context {M : MathLib}.
Import ComparableFinder PropertyService.

Lemma ranking_length (w : World) (subject : Property) :
  length (Py.sort_reverse (fun x : Property * PropertySale * Q => x.2)
            (scored_comps w subject))
  = length (potential_comps w subject).
Proof.
  rewrite (Permutation_length (sort_reverse_perm _ _)).
  unfold scored_comps. apply length_map.
Qed.

(** X11: The number of comparables returned, for every [max_results]: a limit
    that is not negative keeps that many from the top of the ranking, or all
    when there are fewer; a negative limit does not raise, it drops that
    many from the end of the ranking. *)
Theorem returned_count (w : World) (subject : Property) (max_results : Z) :
  let pool := Z.of_nat (length (potential_comps w subject)) in
  Z.of_nat (length (find_comparables w subject max_results))
  = if (0 <=? max_results)%Z then Z.min max_results pool
    else Z.max 0 (pool + max_results).
Proof.
  intros pool. unfold find_comparables, Py.slice_to.
  pose proof (ranking_length w subject) as Hlen.
  destruct (0 <=? max_results)%Z eqn:E; rewrite length_take, Hlen;
    subst pool; lia.
Qed.

Lemma selection_at_most_six (w : World) (subject : Property) :
  (length (find_comparables w subject 6) <= 6)%nat.
Proof.
  pose proof (slice_to_length
                (Py.sort_reverse (fun x : Property * PropertySale * Q => x.2)
                   (scored_comps w subject)) 6 ltac:(lia)) as H.
  unfold find_comparables. lia.
Qed.

(** X21: A result always lists at least one comparable and at most six: the
    placeholder when nothing was selected, the selected ones otherwise. *)
Theorem analysis_lists_one_to_six_comparables (w : World) (subject : Property)
    (r : analysis) :
  perform_cma_analysis w subject = Py.Ok r ->
  length (comparables r) = Nat.max 1 (length (find_comparables w subject 6))
  /\ (1 <= length (comparables r) <= 6)%nat.
Proof.
  intros Hr. pose proof (selection_at_most_six w subject) as Hcount.
  destruct (find_comparables w subject 6) as [|c cs] eqn:Hsel.
  - unfold perform_cma_analysis in Hr. rewrite Hsel in Hr.
    injection Hr as <-. cbn. lia.
  - destruct (analysis_shape w subject r c cs Hsel Hr)
      as (_ & _ & _ & _ & _ & -> & _).
    rewrite !length_map. cbn [length] in *. lia.
Qed.

End Counts.

Section CountsExamples.
Import ComparableFinder PropertyService.

Lemma analysis_lists_one_to_six_comparables_witness :
  exists r,
    @perform_cma_analysis ApproxMath.math (Sample.main_street Sample.today)
      Sample.subject = Py.Ok r
    /\ (1 <= length (comparables r) <= 6)%nat.
Proof.
  eexists. split; [vm_compute; reflexivity|].
  refine (proj2 (@analysis_lists_one_to_six_comparables ApproxMath.math
                   (Sample.main_street Sample.today) Sample.subject _ _)).
  vm_compute. reflexivity.
Defined.

End CountsExamples.

(** * The analysis with its errors *)

(** ** Where the score raises *)

Section Errors.
Context {M : MathLib}.
Local Open Scope Q_scope.
Import ComparableFinder PropertyService WithErrors.

Lemma distance_cases (lat1 lon1 lat2 lon2 : Q) :
  _calculate_distance lat1 lon1 lat2 lon2 = Py.Raise Py.ValueError
  \/ _calculate_distance lat1 lon1 lat2 lon2
     = Py.Ok (ComparableFinder._calculate_distance lat1 lon1 lat2 lon2).
Proof.
  unfold _calculate_distance, ComparableFinder._calculate_distance,
    math_sqrt, math_asin.
  cbv zeta. destruct (Qle_bool 0 _); [|now left]. rewrite bind_ok.
  destruct (Qle_bool (-1) _ && Qle_bool _ 1); [|now left]. now right.
Qed.

Lemma score_cases (subject comparable : Property) :
  _calculate_similarity_score subject comparable = Py.Raise Py.ValueError
  \/ _calculate_similarity_score subject comparable
     = Py.Ok (ComparableFinder._calculate_similarity_score subject comparable).
Proof.
  unfold _calculate_similarity_score,
    ComparableFinder._calculate_similarity_score, proximity_block,
    ComparableFinder.proximity_block.
  cbv zeta.
  destruct (Py.both_float (latitude subject) _) as [[slat slon]|];
    [|now right].
  destruct (Py.both_float (latitude comparable) _) as [[clat clon]|];
    [|now right].
  destruct (distance_cases slat slon clat clon) as [-> | ->];
    [now left|now right].
Qed.


Lemma score_row_raises (subject : Property) (row : Property * PropertySale) :
  _calculate_similarity_score subject row.1 = Py.Raise Py.ValueError ->
  score_row subject row = Py.Raise Py.ValueError.
Proof.
  destruct row as [prop sale]. unfold score_row. cbn [fst]. now intros ->.
Qed.

Lemma score_row_returns (subject : Property) (row : Property * PropertySale) :
  _calculate_similarity_score subject row.1
  = Py.Ok (ComparableFinder._calculate_similarity_score subject row.1) ->
  score_row subject row
  = Py.Ok (let '(prop, sale) := row in
           (prop, sale,
            ComparableFinder._calculate_similarity_score subject prop)).
Proof.
  destruct row as [prop sale]. unfold score_row. cbn [fst]. now intros ->.
Qed.

Lemma for_each_map {A B} (f : A -> Py.result B) (g : A -> B) (l : list A) :
  Forall (fun x => f x = Py.Ok (g x)) l -> Py.for_each f l = Py.Ok (map g l).
Proof.
  induction 1 as [|x t Hx _ IH]; [reflexivity|].
  simpl. now rewrite Hx, IH.
Qed.

(** Either scoring raises on some eligible row, or it returns on all. *)
Lemma domain_error_cases (w : World) (subject : Property) :
  domain_error w subject
  \/ Forall
       (fun row : Property * PropertySale =>
          _calculate_similarity_score subject row.1
          = Py.Ok (ComparableFinder._calculate_similarity_score subject row.1))
       (potential_comps w subject).
Proof.
  unfold domain_error.
  induction (potential_comps w subject) as [|row rows [IH | IH]].
  - right. constructor.
  - left. now constructor 2.
  - destruct (score_cases subject row.1) as [H | H].
    + left. now constructor 1.
    + right. now constructor.
Qed.

Lemma no_domain_error (w : World) (subject : Property) :
  ~ domain_error w subject ->
  Forall
    (fun row : Property * PropertySale =>
       _calculate_similarity_score subject row.1
       = Py.Ok (ComparableFinder._calculate_similarity_score subject row.1))
    (potential_comps w subject).
Proof. intros H. now destruct (domain_error_cases w subject). Qed.

Lemma find_comparables_raises (w : World) (subject : Property)
    (max_results : Z) :
  domain_error w subject ->
  find_comparables w subject max_results = Py.Raise Py.ValueError.
Proof.
  intros H. unfold find_comparables. cbv zeta.
  rewrite (for_each_raise (score_row subject) Py.ValueError); [reflexivity| |].
  - apply List.Forall_forall. intros row _.
    destruct (score_cases subject row.1) as [E | E].
    + left. now apply score_row_raises.
    + right. eexists. now apply score_row_returns.
  - eapply List.Exists_impl; [|exact H].
    intros row. apply score_row_raises.
Qed.

(** Without such an error the finder returns the ranking of
    [ComparableFinder.find_comparables]. *)
Lemma find_comparables_returns (w : World) (subject : Property)
    (max_results : Z) :
  ~ domain_error w subject ->
  find_comparables w subject max_results
  = Py.Ok (ComparableFinder.find_comparables w subject max_results).
Proof.
  intros H. apply no_domain_error in H. unfold find_comparables. cbv zeta.
  rewrite (for_each_map (score_row subject)
             (fun '(prop, sale) =>
                (prop, sale,
                 ComparableFinder._calculate_similarity_score subject prop))).
  - reflexivity.
  - eapply List.Forall_impl; [|exact H].
    intros row. apply score_row_returns.
Qed.

Lemma domain_error_no_return (w : World) (subject : Property)
    (max_results : Z) (l : list (Property * PropertySale * Q)) :
  find_comparables w subject max_results = Py.Ok l -> ~ domain_error w subject.
Proof.
  intros H C. rewrite (find_comparables_raises _ _ _ C) in H. discriminate.
Qed.

(** ** What the analysis does with a selection *)









(** When no score raises, the service built by [__init__] returns what
    [PropertyService.perform_cma_analysis] describes. *)
Lemma returns_the_described_result (w : World) (subject : Property) :
  ~ domain_error w subject ->
  perform_cma_analysis init w subject
  = PropertyService.perform_cma_analysis w subject.
Proof.
  intros H. unfold perform_cma_analysis.
  rewrite (find_comparables_returns _ _ _ H), bind_ok. reflexivity.
Qed.

End Errors.

(** ** What the result depends on *)

Section RowOrder.
Context {M : MathLib}.
Local Open Scope Q_scope.
Import ComparableFinder PropertyService WithErrors.

Lemma bind_perm {A B} (f : A -> list B) (l1 l2 : list A) :
  l1 ≡ₚ l2 -> l1 ≫= f ≡ₚ l2 ≫= f.
Proof.
  induction 1 as [|x l1 l2 _ IH|x y l|l1 l2 l3 _ IH1 _ IH2]; simpl.
  - reflexivity.
  - now rewrite IH.
  - rewrite !app_assoc. f_equiv. apply Permutation_app_comm.
  - now rewrite IH1.
Qed.

Lemma bind_perm_ext {A B} (f g : A -> list B) (l : list A) :
  (forall x, f x ≡ₚ g x) -> l ≫= f ≡ₚ l ≫= g.
Proof.
  intros H. induction l as [|x l IH]; simpl; [reflexivity|].
  now rewrite H, IH.
Qed.

Lemma filter_perm {A} (f : A -> bool) (l1 l2 : list A) :
  l1 ≡ₚ l2 -> List.filter f l1 ≡ₚ List.filter f l2.
Proof.
  induction 1 as [|x l1 l2 _ IH|x y l|l1 l2 l3 _ IH1 _ IH2]; simpl.
  - reflexivity.
  - destruct (f x); now rewrite IH.
  - destruct (f x), (f y); try reflexivity. apply perm_swap.
  - now rewrite IH1.
Qed.

Lemma decide_filter_perm {A} (P : A -> Prop) `{forall x, Decision (P x)}
    (l1 l2 : list A) :
  l1 ≡ₚ l2 -> filter P l1 ≡ₚ filter P l2.
Proof.
  induction 1 as [|x l1 l2 _ IH|x y l|l1 l2 l3 _ IH1 _ IH2].
  - reflexivity.
  - rewrite !filter_cons. destruct (decide (P x)); now rewrite IH.
  - rewrite !filter_cons. destruct (decide (P x)), (decide (P y));
      try reflexivity. apply perm_swap.
  - now rewrite IH1.
Qed.

(** The rows of the join are the same whatever the order of the tables. *)
Lemma join_sales_perm (s1 s2 : Session) :
  properties s1 ≡ₚ properties s2 ->
  property_sales s1 ≡ₚ property_sales s2 ->
  join_sales s1 ≡ₚ join_sales s2.
Proof.
  intros Hp Hs. unfold join_sales.
  rewrite (bind_perm _ _ _ Hp). apply bind_perm_ext. intros p.
  apply bind_perm. now apply decide_filter_perm.
Qed.

Lemma potential_comps_perm (w1 w2 : World) (subject : Property) :
  clock w1 = clock w2 ->
  properties (db w1) ≡ₚ properties (db w2) ->
  property_sales (db w1) ≡ₚ property_sales (db w2) ->
  potential_comps w1 subject ≡ₚ potential_comps w2 subject.
Proof.
  intros Hc Hp Hs. unfold potential_comps. rewrite Hc.
  apply filter_perm. now apply join_sales_perm.
Qed.

Lemma domain_error_perm (w1 w2 : World) (subject : Property) :
  potential_comps w1 subject ≡ₚ potential_comps w2 subject ->
  domain_error w1 subject -> domain_error w2 subject.
Proof.
  unfold domain_error. intros Hp H.
  apply List.Exists_exists in H as (row & Hin & H).
  apply List.Exists_exists. exists row. split; [|exact H].
  eapply Permutation_in; eassumption.
Qed.

(** A list sorted by descending key is determined by its elements when
    elements with the same key are the same. *)
Lemma sorted_perm_unique {A} (key : A -> Q) (l1 l2 : list A) :
  StronglySorted (descending key) l1 ->
  StronglySorted (descending key) l2 ->
  l1 ≡ₚ l2 ->
  (forall a b, a ∈ l1 -> b ∈ l1 -> key a == key b -> a = b) ->
  l1 = l2.
Proof.
  revert l2. induction l1 as [|x t IH]; intros l2 S1 S2 Hp Hkey.
  - now apply Permutation_nil in Hp.
  - destruct l2 as [|y t2].
    { symmetry in Hp. now apply Permutation_nil in Hp. }
    apply StronglySorted_inv in S1 as [S1 Hx].
    apply StronglySorted_inv in S2 as [S2 Hy].
    rewrite List.Forall_forall in Hx, Hy.
    assert (x = y) as ->.
    { assert (x ∈ y :: t2) as Hxin by (rewrite <- Hp; left).
      assert (y ∈ x :: t) as Hyin by (rewrite Hp; left).
      apply elem_of_cons in Hxin as [E | Hxin]; [exact E|].
      apply elem_of_cons in Hyin as [E | Hyin]; [now symmetry|].
      apply list_elem_of_In in Hxin, Hyin.
      specialize (Hx _ Hyin). specialize (Hy _ Hxin).
      unfold descending in Hx, Hy.
      apply Hkey; [left|right; now apply list_elem_of_In|].
      now apply Qle_antisym. }
    f_equal. apply IH; try assumption.
    + now apply Permutation_cons_inv in Hp.
    + intros a b Ha Hb. apply Hkey; now right.
Qed.

(** Without ties the ranking does not depend on the order of the rows. *)
Lemma ranking_perm (w1 w2 : World) (subject : Property) (max_results : Z) :
  potential_comps w1 subject ≡ₚ potential_comps w2 subject ->
  no_ties w1 subject ->
  ComparableFinder.find_comparables w1 subject max_results
  = ComparableFinder.find_comparables w2 subject max_results.
Proof.
  intros Hp Hties. unfold ComparableFinder.find_comparables. cbv zeta.
  f_equal. apply (sorted_perm_unique (fun x => x.2)).
  - apply (sort_reverse_sorted (fun x => x.2)).
  - apply (sort_reverse_sorted (fun x => x.2)).
  - rewrite !sort_reverse_perm. unfold scored_comps. now apply Permutation_map.
  - intros a b Ha Hb Hkey. rewrite sort_reverse_perm in Ha, Hb.
    apply list_elem_of_fmap in Ha as ([pa sa] & -> & Ha).
    apply list_elem_of_fmap in Hb as ([pb sb] & -> & Hb).
    cbn [snd] in Hkey.
    pose proof (Hties (pa, sa) (pb, sb) Ha Hb Hkey) as E.
    injection E as -> ->. reflexivity.
Qed.

Lemma analysis_of_ranking (self : service) (w1 w2 : World)
    (subject : Property) :
  clock w1 = clock w2 ->
  find_comparables w1 subject 6 = find_comparables w2 subject 6 ->
  perform_cma_analysis self w1 subject = perform_cma_analysis self w2 subject.
Proof.
  intros Hc Hf. unfold perform_cma_analysis. now rewrite Hc, Hf.
Qed.

(** C4 (as amended): the analysis is a function of the configuration of
    the service, the subject, the stored properties and sales, and the
    reading of the clock.  Two calls that agree on these end the same way,
    in the same result or the same exception, whatever else the database
    holds; the order in which the database returns the rows has no
    influence either, as long as no two eligible rows have the same
    score. *)
Theorem analysis_determined_by_inputs_and_clock (self : service)
    (w1 w2 : World) (subject : Property) :
  clock w1 = clock w2 ->
  properties (db w1) ≡ₚ properties (db w2) ->
  property_sales (db w1) ≡ₚ property_sales (db w2) ->
  no_ties w1 subject
  \/ (properties (db w1) = properties (db w2)
      /\ property_sales (db w1) = property_sales (db w2)) ->
  perform_cma_analysis self w1 subject = perform_cma_analysis self w2 subject.
Proof.
  intros Hc Hp Hs Horder. apply analysis_of_ranking; [exact Hc|].
  destruct Horder as [Hties | [Ep Es]].
  - pose proof (potential_comps_perm w1 w2 subject Hc Hp Hs) as Hpool.
    destruct (domain_error_cases w1 subject) as [Hd | Hd].
    + rewrite (find_comparables_raises _ _ _ Hd).
      now rewrite (find_comparables_raises _ _ _
                     (domain_error_perm _ _ _ Hpool Hd)).
    + assert (~ domain_error w1 subject) as Hn1.
      { unfold domain_error. intros C.
        apply List.Exists_exists in C as (row & Hin & C).
        rewrite List.Forall_forall in Hd. specialize (Hd _ Hin). congruence. }
      assert (~ domain_error w2 subject) as Hn2.
      { intros C. apply Hn1. eapply domain_error_perm; [|exact C].
        now symmetry. }
      rewrite (find_comparables_returns _ _ _ Hn1),
        (find_comparables_returns _ _ _ Hn2).
      f_equal. now apply ranking_perm.
  - unfold find_comparables, potential_comps, join_sales.
    now rewrite Hc, Ep, Es.
Qed.

End RowOrder.

Section ErrorsExamples.
Local Open Scope Q_scope.
Import ComparableFinder PropertyService WithErrors.

Lemma analysis_determined_by_inputs_and_clock_witness :
  properties (db (Sample.main_street Sample.today))
  <> properties (db Sample.main_street_reordered)
  /\ cma_analyses (db (Sample.main_street Sample.today))
     <> cma_analyses (db Sample.main_street_reordered)
  /\ @perform_cma_analysis ApproxMath.math init
       (Sample.main_street Sample.today) Sample.subject
     = @perform_cma_analysis ApproxMath.math init
         Sample.main_street_reordered Sample.subject.
Proof.
  split; [discriminate|]. split; [discriminate|].
  apply (@analysis_determined_by_inputs_and_clock ApproxMath.math init
           (Sample.main_street Sample.today) Sample.main_street_reordered
           Sample.subject).
  - reflexivity.
  - change (properties (db (Sample.main_street Sample.today)))
      with [Sample.subject; Sample.twin; Sample.cottage].
    change (properties (db Sample.main_street_reordered))
      with [Sample.cottage; Sample.subject; Sample.twin].
    symmetry. apply (Permutation_cons_append [_; _]).
  - change (property_sales (db (Sample.main_street Sample.today)))
      with (rev (property_sales (db Sample.main_street_reordered))).
    symmetry. apply Permutation_rev.
  - left. intros r1 r2 H1 H2.
    change (potential_comps (Sample.main_street Sample.today) Sample.subject)
      with [(Sample.twin, Sample.sold 1 2 400000 30);
            (Sample.cottage, Sample.sold 2 3 300000 100)] in H1, H2.
    apply elem_of_cons in H1 as [-> | H1];
      [|apply list_elem_of_singleton in H1 as ->];
      (apply elem_of_cons in H2 as [-> | H2];
       [|apply list_elem_of_singleton in H2 as ->]);
      intros Hq; try reflexivity; vm_compute in Hq; discriminate Hq.
Defined.


(** A sale recorded with the price 0 makes the analysis fail with the
    arithmetic error. *)
Example zero_price_raises :
  @perform_cma_analysis ApproxMath.math init Sample.zero_price
    (Sample.bare 1 "1 Low St") = Py.Raise Py.ZeroDivisionError.
Proof. vm_compute. reflexivity. Qed.

(** A latitude outside [-90, 90] makes the haversine term negative, and the
    analysis fails in [math.sqrt] although the sale price is 250000. *)
Example latitude_off_the_map_raises :
  @perform_cma_analysis ApproxMath.math init Sample.pole_road
    Sample.off_the_map = Py.Raise Py.ValueError.
Proof. vm_compute. reflexivity. Qed.

(** C4 (as stated) fails: the same subject and the same database, analysed
    at two readings of the clock 30 days apart, get different estimates,
    because the age of each sale is measured against [datetime.now()]. *)
Lemma result_depends_on_clock :
  let later := (Sample.today + 30 * Sample.day)%Z in
  db (Sample.main_street Sample.today) = db (Sample.main_street later)
  /\ exists r1 r2,
      @perform_cma_analysis ApproxMath.math init
        (Sample.main_street Sample.today) Sample.subject = Py.Ok r1
      /\ @perform_cma_analysis ApproxMath.math init (Sample.main_street later)
           Sample.subject = Py.Ok r2
      /\ most_likely (estimated_value r1) = 438666%Z
      /\ most_likely (estimated_value r2) = 439166%Z
      /\ r1 <> r2.
Proof.
  intros later. split; [reflexivity|]. eexists. eexists.
  split; [vm_compute; reflexivity|].
  split; [vm_compute; reflexivity|].
  split; [reflexivity|]. split; [reflexivity|].
  intros C. apply (f_equal (fun r => most_likely (estimated_value r))) in C.
  discriminate C.
Qed.

(** Among ties the order of the rows does matter: seven candidates with the
    same score, of which only six are kept, give another estimate when the
    table of properties is read the other way round. *)
Example row_order_matters_among_ties :
  properties (db Sample.plain) ≡ₚ properties (db Sample.plain_reversed)
  /\ property_sales (db Sample.plain) = property_sales (db Sample.plain_reversed)
  /\ exists r1 r2,
      @perform_cma_analysis ApproxMath.math init Sample.plain
        (Sample.bare 1 "1 Plain St") = Py.Ok r1
      /\ @perform_cma_analysis ApproxMath.math init Sample.plain_reversed
           (Sample.bare 1 "1 Plain St") = Py.Ok r2
      /\ most_likely (estimated_value r1) = 350000%Z
      /\ most_likely (estimated_value r2) = 450000%Z.
Proof.
  split; [apply Permutation_rev|]. split; [reflexivity|].
  eexists. eexists.
  split; [vm_compute; reflexivity|].
  split; [vm_compute; reflexivity|].
  split; reflexivity.
Qed.

End ErrorsExamples.
